(** * The schema-driven object mapping core of pynwb.form.build.map

    A shallow embedding of [src/pynwb/form/build/map.py]: the dtype
    coercer ([ObjectMapper.convert_dtype]), the name deriver
    ([ObjectMapper.get_attr_names]), the spec/field index, the build path
    of [ObjectMapper], [TypeMap.build], [BuildManager.build] and [Proxy].

    Python objects with identity (containers, builders, spec nodes) live
    in stores indexed by natural numbers; functions that mutate them are
    written in a state-and-exception monad.  Library functions of Python
    and numpy that the module calls are either modelled (numeric scalar
    casts) or taken as parameters ([PyLib]). *)

From Stdlib Require Import ZArith String List Bool Ascii.
From Stdlib Require Import Floats.SpecFloat.
From stdpp Require Import gmap strings list fin_maps.

Set Warnings "-register-all".
Open Scope string_scope.
Open Scope Z_scope.

(** ** Exceptions and results *)

(** The messages of the exceptions raised in map.py, by the place that
    raises them; the formatted operands are kept where they are strings. *)
Inductive Msg :=
| MsgExpectedString                       (* _unicode / _ascii *)
| MsgDtypeMismatch (expected received : string) (or_higher : bool)
| MsgUnrecognizedDtype (dt : string)
| MsgUnhashableDtype
| MsgLocalUnbound (var : string)
| MsgCantChangeSource
| MsgNotMapped                            (* get_map: class not mapped *)
| MsgNoSpec (ns dt : string)
| MsgMustBeData
| MsgMustBeDataRegion
| MsgCouldNotResolveDtype
| MsgCouldNotConvert (spec_name : option string)
| MsgRefNotFound (target_type : string)
| MsgRefInvalidType (spec_name : string)
| MsgUnmodifiedNoSource
| MsgExpectedContainer
| MsgNoBuilderName
| MsgBadArgument (what : string)
| MsgNoAttribute (attr : string)
| MsgIndex
| MsgDangling.

Inductive Exn :=
| ValueError (m : Msg)
| TypeError (m : Msg)
| UnboundLocalError (m : Msg)
| AttributeError (m : Msg)
| LookupError (m : Msg)                   (* IndexError / KeyError *)
| Wrapped (m : Msg) (cause : Exn)         (* raise_from(Exception(msg), ex) *)
| LibraryError                            (* raised inside a library call *)
| RecursionError.                         (* the call never returns *)

Inductive Res (A : Type) :=
| Ok (a : A)
| Err (e : Exn).
Arguments Ok {A} a.
Arguments Err {A} e.

Definition res_bind {A B} (m : Res A) (k : A -> Res B) : Res B :=
  match m with
  | Ok a => k a
  | Err e => Err e
  end.

Declare Scope py_scope.
Notation "x ⇐ y ; z" := (res_bind y (fun x => z))
  (at level 20, y at level 100, z at level 200, only parsing) : py_scope.
Open Scope py_scope.

(** ** numpy: scalar types, their width and name, scalar casts *)

Module Numpy.

Inductive dtype :=
| int8 | int16 | int32 | int64
| uint8 | uint16 | uint32 | uint64
| float32 | float64
| bool_
| complex128
| object_
| str_
| bytes_.

#[global] Instance dtype_eq_dec : EqDecision dtype.
Proof. solve_decision. Defined.

(** [np.dtype(t).itemsize] *)
Definition itemsize (t : dtype) : Z :=
  match t with
  | int8 | uint8 | bool_ => 1
  | int16 | uint16 => 2
  | int32 | uint32 | float32 => 4
  | int64 | uint64 | float64 | object_ => 8
  | complex128 => 16
  | str_ | bytes_ => 0
  end.

(** [np.dtype(t).name] *)
Definition name (t : dtype) : string :=
  match t with
  | int8 => "int8" | int16 => "int16" | int32 => "int32" | int64 => "int64"
  | uint8 => "uint8" | uint16 => "uint16" | uint32 => "uint32"
  | uint64 => "uint64"
  | float32 => "float32" | float64 => "float64"
  | bool_ => "bool"
  | complex128 => "complex128"
  | object_ => "object"
  | str_ => "str"
  | bytes_ => "bytes"
  end.

(** The payload of a numpy scalar. *)
Inductive payload :=
| PInt (z : Z)
| PFloat (f : spec_float)
| PBool (b : bool).

(** The integer range of an integer type, [None] for the other types. *)
Definition int_range (t : dtype) : option (Z * Z) :=
  match t with
  | int8 => Some (-128, 127)
  | int16 => Some (-32768, 32767)
  | int32 => Some (-2147483648, 2147483647)
  | int64 => Some (-9223372036854775808, 9223372036854775807)
  | uint8 => Some (0, 255)
  | uint16 => Some (0, 65535)
  | uint32 => Some (0, 4294967295)
  | uint64 => Some (0, 18446744073709551615)
  | _ => None
  end.

(** Truncation of a finite binary float toward zero. *)
Definition trunc (f : spec_float) : option Z :=
  match f with
  | S754_zero _ => Some 0
  | S754_finite s m e =>
      let a := match e with
               | Z0 => Zpos m
               | Zpos p => Zpos m * 2 ^ Zpos p
               | Zneg p => Zpos m / 2 ^ Zpos p
               end in
      Some (if s then - a else a)
  | _ => None
  end.

Definition is_zero (f : spec_float) : bool :=
  match f with
  | S754_zero _ => true
  | _ => false
  end.

(** Rounding to binary32 and the conversion of an integer to a float. *)
Definition to_binary32 (f : spec_float) : spec_float :=
  match f with
  | S754_finite s m e => binary_round 24 128 s m e
  | _ => f
  end.

Definition float_of_Z (t : dtype) (z : Z) : spec_float :=
  match t with
  | float32 => binary_normalize 24 128 z 0 false
  | _ => binary_normalize 53 1024 z 0 false
  end.

(** An integer brought into the range [lo..hi] of an integer type by
    keeping its low bits: it wraps around. *)
Definition wrap (lo hi z : Z) : Z := lo + (z - lo) mod (hi - lo + 1).

(** The scalar constructor [t(p)] on the payload of a Python number
    ([numpy = false]) or of a numpy scalar ([numpy = true]).  A numpy
    integer converted to an integer type wraps around: [int8(uint8(200))]
    is [-56].  [None] where the result depends on the numpy version or
    the platform, or numpy raises: a Python int out of the range of [t],
    a float that is not finite or is out of the range of [t] cast to an
    integer. *)
Definition cast (t : dtype) (numpy : bool) (p : payload) : option payload :=
  match int_range t with
  | Some (lo, hi) =>
      match p with
      | PInt z =>
          if (lo <=? z) && (z <=? hi) then Some (PInt z)
          else if numpy then Some (PInt (wrap lo hi z)) else None
      | PFloat f =>
          match trunc f with
          | Some z => if (lo <=? z) && (z <=? hi) then Some (PInt z) else None
          | None => None
          end
      | PBool b => Some (PInt (if b then 1 else 0))
      end
  | None =>
      match t with
      | float32 | float64 =>
          match p with
          | PInt z => Some (PFloat (float_of_Z t z))
          | PFloat f =>
              Some (PFloat (match t with float32 => to_binary32 f | _ => f end))
          | PBool b => Some (PFloat (float_of_Z t (if b then 1 else 0)))
          end
      | bool_ =>
          match p with
          | PInt z => Some (PBool (negb (z =? 0)))
          | PFloat f => Some (PBool (negb (is_zero f)))
          | PBool b => Some (PBool b)
          end
      | _ => None
      end
  end.

End Numpy.

(** ** Python values *)

Abbreviation cid := nat (only parsing).   (* identity of a Container *)
Abbreviation bid := nat (only parsing).   (* identity of a Builder *)

Inductive PyVal :=
| VNone
| VBool (b : bool)
| VInt (z : Z)                          (* int *)
| VFloat (f : spec_float)               (* float, a binary64 *)
| VComplex                              (* complex; its value is not used *)
| VText (s : string)                    (* text_type *)
| VBytes (s : string)                   (* binary_type *)
| VNp (t : Numpy.dtype) (p : Numpy.payload)      (* numpy scalar *)
| VNdarray (t : Numpy.dtype) (cells : list PyVal) (* ndarray of dtype t *)
| VList (l : list PyVal)
| VTuple (l : list PyVal)
| VSet (l : list PyVal)
| VDict (l : list (PyVal * PyVal))
| VDataIO (data : PyVal)                (* DataIO wrapper around data *)
| VChunkIterator                        (* AbstractDataChunkIterator *)
| VContainer (c : cid)
| VBuilder (b : bid)                    (* GroupBuilder / DatasetBuilder *)
| VReferenceBuilder (b : bid)
| VRegionBuilder (region : PyVal) (b : bid)
| VRegionSlice (slice : PyVal) (target : cid)    (* has .slice and .target *)
| VObject.                              (* any other object *)

(** [np.dtype(type(value))] for a value that reaches the scalar branch of
    convert_dtype.  A Python int is the C long, 64 bits wide on the LP64
    platforms the library targets. *)
Definition dtype_of_type (v : PyVal) : Numpy.dtype :=
  match v with
  | VBool _ => Numpy.bool_
  | VInt _ => Numpy.int64
  | VFloat _ => Numpy.float64
  | VComplex => Numpy.complex128
  | VText _ => Numpy.str_
  | VBytes _ => Numpy.bytes_
  | VNp t _ => t
  | _ => Numpy.object_
  end.

(** ** Declared dtypes *)

Record RefSpec := mkRefSpec {
  target_type : string;
  reftype : string                       (* "object" or "region" *)
}.

Definition is_region (r : RefSpec) : bool := String.eqb (reftype r) "region".

Inductive Dtype :=
| DtNone
| DtStr (s : string)
| DtRef (r : RefSpec)
| DtCompound (fields : list (string * (string + RefSpec)))
| DtType (t : Numpy.dtype).              (* a numpy scalar type object *)

(** ** Library functions taken as parameters *)

Record PyLib := mkPyLib {
  (** [text_type(v)], [binary_type(v)] and [datetime.isoformat(v)] *)
  text_type : PyVal -> Res PyVal;
  binary_type : PyVal -> Res PyVal;
  isoformat : PyVal -> Res PyVal;
  (** [s.decode('utf-8')] and [s.encode('ascii', 'backslashreplace')] *)
  decode_utf8 : string -> Res string;
  encode_ascii : string -> string;
  (** the scalar constructor [t(v)] on a value that is not a number *)
  np_construct : Numpy.dtype -> PyVal -> Res PyVal;
  (** the payload of the scalar [t(v)] for a number [v], where it depends
      on the numpy version or the platform, or numpy raises *)
  np_cast : Numpy.dtype -> PyVal -> Res Numpy.payload;
  (** [a.astype('U')], [a.astype('S')] and [a.astype(t)]; the result is an
      ndarray given by its dtype and cells *)
  astype_U : Numpy.dtype -> list PyVal -> Res (Numpy.dtype * list PyVal);
  astype_S : Numpy.dtype -> list PyVal -> Res (Numpy.dtype * list PyVal);
  astype : Numpy.dtype -> Numpy.dtype -> list PyVal ->
           Res (Numpy.dtype * list PyVal)
}.

(** ** Dtype Coercer: [_unicode], [_ascii], [__dtypes], [__resolve_dtype],
    [convert_dtype] *)

Section Coercer.
Variable py : PyLib.

(** [_unicode(s)] *)
Definition _unicode (s : PyVal) : Res PyVal :=
  match s with
  | VText _ => Ok s
  | VBytes b => t ⇐ decode_utf8 py b; Ok (VText t)
  | _ => Err (ValueError MsgExpectedString)
  end.

(** [_ascii(s)] *)
Definition _ascii (s : PyVal) : Res PyVal :=
  match s with
  | VText t => Ok (VBytes (encode_ascii py t))
  | VBytes _ => Ok s
  | _ => Err (ValueError MsgExpectedString)
  end.

(** The values of the table [ObjectMapper.__dtypes]. *)
Inductive DtypeFunc :=
| FNp (t : Numpy.dtype)
| FUnicode
| FAscii.

(** [ObjectMapper.__dtypes.get(s)] *)
Definition __dtypes (s : string) : option DtypeFunc :=
  if String.eqb s "float" then Some (FNp Numpy.float32)
  else if String.eqb s "float32" then Some (FNp Numpy.float32)
  else if String.eqb s "double" then Some (FNp Numpy.float64)
  else if String.eqb s "float64" then Some (FNp Numpy.float64)
  else if String.eqb s "long" then Some (FNp Numpy.int64)
  else if String.eqb s "int64" then Some (FNp Numpy.int64)
  else if String.eqb s "uint64" then Some (FNp Numpy.uint64)
  else if String.eqb s "int" then Some (FNp Numpy.int32)
  else if String.eqb s "int32" then Some (FNp Numpy.int32)
  else if String.eqb s "int16" then Some (FNp Numpy.int16)
  else if String.eqb s "int8" then Some (FNp Numpy.int8)
  else if String.eqb s "bool" then Some (FNp Numpy.bool_)
  else if String.eqb s "text" then Some FUnicode
  else if String.eqb s "utf" then Some FUnicode
  else if String.eqb s "utf8" then Some FUnicode
  else if String.eqb s "utf-8" then Some FUnicode
  else if String.eqb s "ascii" then Some FAscii
  else if String.eqb s "str" then Some FAscii
  else if String.eqb s "isodatetime" then Some FAscii
  else if String.eqb s "uint32" then Some (FNp Numpy.uint32)
  else if String.eqb s "uint16" then Some (FNp Numpy.uint16)
  else if String.eqb s "uint8" then Some (FNp Numpy.uint8)
  else None.

(** [name[:3]] *)
Definition prefix3 (s : string) : string := String.substring 0 3 s.

(** [ObjectMapper.__resolve_dtype(given, specified)], on the numpy dtypes
    [np.dtype(given)] and [np.dtype(specified)] *)
Definition __resolve_dtype (g s : Numpy.dtype) : Res Numpy.dtype :=
  if Numpy.itemsize g <=? Numpy.itemsize s then Ok s
  else if negb (String.eqb (prefix3 (Numpy.name g)) (prefix3 (Numpy.name s)))
  then Err (ValueError (MsgDtypeMismatch (Numpy.name s) (Numpy.name g)
                          (Numpy.itemsize s <? 8)))
  else Ok g.

(** The scalar constructor [dtype_func(value)]. *)
Definition np_scalar (t : Numpy.dtype) (value : PyVal) : Res PyVal :=
  let num numpy p := match Numpy.cast t numpy p with
                     | Some q => Ok (VNp t q)
                     | None => q ⇐ np_cast py t value; Ok (VNp t q)
                     end in
  match value with
  | VBool b => num false (Numpy.PBool b)
  | VInt z => num false (Numpy.PInt z)
  | VFloat f => num false (Numpy.PFloat f)
  | VNp _ p => num true p
  | _ => np_construct py t value
  end.

(** [type(ret)] for the result of a scalar constructor *)
Definition type_of (v : PyVal) : Dtype :=
  match v with
  | VNp t _ => DtType t
  | _ => DtType (dtype_of_type v)
  end.

(** [ObjectMapper.convert_dtype(spec, value)]; [dt] is [spec.dtype].  The
    result is the pair (value, reported dtype).  A RefSpec or a compound
    dtype is no key of the table [__dtypes]: the membership test
    raises. *)
Fixpoint convert_dtype (dt : Dtype) (value : PyVal) : Res (PyVal * Dtype) :=
  match value with
  | VNone =>
      Ok (VNone, match dt with DtRef r => DtStr (reftype r) | _ => dt end)
  | VDataIO data =>
      r ⇐ convert_dtype dt data; Ok (value, snd r)
  | _ =>
      match dt with
      | DtNone => Ok (value, DtNone)
      | DtStr s =>
          if String.eqb s "numeric" then Ok (value, DtNone)
          else
            match __dtypes s with
            | None => Err (ValueError (MsgUnrecognizedDtype s))
            | Some spec_dtype =>
                match value with
                | VNdarray t cells =>
                    match spec_dtype with
                    | FUnicode =>
                        a ⇐ astype_U py t cells;
                        Ok (VNdarray (fst a) (snd a), DtStr "utf8")
                    | FAscii =>
                        a ⇐ astype_S py t cells;
                        Ok (VNdarray (fst a) (snd a), DtStr "ascii")
                    | FNp st =>
                        dtype_func ⇐ __resolve_dtype t st;
                        a ⇐ astype py dtype_func t cells;
                        Ok (VNdarray (fst a) (snd a), DtType (fst a))
                    end
                | VList l | VTuple l =>
                    let loop :=
                      fix loop (l : list PyVal) (ret : list PyVal)
                          (tmp_dtype : option Dtype)
                          : Res (list PyVal * option Dtype) :=
                        match l with
                        | [] => Ok (ret, tmp_dtype)
                        | elem :: rest =>
                            r ⇐ convert_dtype dt elem;
                            loop rest (ret ++ [fst r])%list (Some (snd r))
                        end in
                    r ⇐ loop l [] None;
                    match snd r with
                    | None => Err (UnboundLocalError (MsgLocalUnbound "tmp_dtype"))
                    | Some ret_dtype =>
                        Ok (match value with
                            | VTuple _ => VTuple (fst r)
                            | _ => VList (fst r)
                            end, ret_dtype)
                    end
                | _ =>
                    match spec_dtype with
                    | FUnicode => ret ⇐ _unicode value; Ok (ret, DtStr "utf8")
                    | FAscii => ret ⇐ _ascii value; Ok (ret, DtStr "ascii")
                    | FNp st =>
                        dtype_func ⇐ __resolve_dtype (dtype_of_type value) st;
                        ret ⇐ np_scalar dtype_func value;
                        Ok (ret, type_of ret)
                    end
                end
            end
      | DtRef _ | DtCompound _ => Err (TypeError MsgUnhashableDtype)
      | DtType _ => Err (ValueError (MsgUnrecognizedDtype "<type>"))
      end
  end.

End Coercer.

(** ** Specifications (the spec layer, consumed read-only) *)

(** [1], ['?'], ['*'], ['+'] *)
Inductive Quantity :=
| QInt (n : Z)
| QZeroOrOne
| QZeroOrMany
| QOneOrMany.

(** Modelled from the spec: [is_many] of the spec layer ("the spec's
    quantity is many"); a quantity is many unless it is 1 or ['?']. *)
Definition quantity_is_many (q : Quantity) : bool :=
  match q with
  | QInt n => negb (n =? 1)
  | QZeroOrOne => false
  | _ => true
  end.

(** Every spec node is a Python object; [*_id] is its identity, the key
    under which the mapper's dictionaries hold it. *)
Record AttributeSpec := mkAttributeSpec {
  attr_id : nat;
  attr_name : string;
  attr_dtype : Dtype;
  attr_shape : option (list Z);
  attr_required : bool;
  attr_default_value : PyVal;
  attr_value : PyVal
}.

Record DatasetSpec := mkDatasetSpec {
  ds_id : nat;
  ds_name : option string;
  ds_dtype : Dtype;
  ds_shape : option (list Z);
  ds_dims : option (list string);
  ds_attributes : list AttributeSpec;
  ds_data_type_def : option string;
  ds_data_type_inc : option string;
  ds_default_name : option string;
  ds_quantity : Quantity;
  ds_required : bool
}.

Record LinkSpec := mkLinkSpec {
  ls_id : nat;
  ls_name : option string;
  ls_target_type : string;
  ls_quantity : Quantity
}.

Inductive GroupSpec := mkGroupSpec {
  gs_id : nat;
  gs_name : option string;
  gs_attributes : list AttributeSpec;
  gs_datasets : list DatasetSpec;
  gs_groups : list GroupSpec;
  gs_links : list LinkSpec;
  gs_data_type_def : option string;
  gs_data_type_inc : option string;
  gs_default_name : option string;
  gs_quantity : Quantity
}.

Inductive Spec :=
| SAttr (a : AttributeSpec)
| SData (d : DatasetSpec)
| SGroup (g : GroupSpec)
| SLink (l : LinkSpec).

Definition spec_id (spec : Spec) : nat :=
  match spec with
  | SAttr a => attr_id a
  | SData d => ds_id d
  | SGroup g => gs_id g
  | SLink l => ls_id l
  end.

Definition spec_name (spec : Spec) : option string :=
  match spec with
  | SAttr a => Some (attr_name a)
  | SData d => ds_name d
  | SGroup g => gs_name g
  | SLink l => ls_name l
  end.

(** [spec.data_type_def] and [spec.data_type_inc] of a dataset or group
    spec.  An AttributeSpec and a LinkSpec have no [data_type_def]:
    reading it raises AttributeError, which [convert_dt_name] does; the
    other readers read it on a dataset or group spec only.  A LinkSpec
    includes its target type. *)
Definition spec_data_type_def (spec : Spec) : option string :=
  match spec with
  | SData d => ds_data_type_def d
  | SGroup g => gs_data_type_def g
  | _ => None
  end.

Definition spec_data_type_inc (spec : Spec) : option string :=
  match spec with
  | SData d => ds_data_type_inc d
  | SGroup g => gs_data_type_inc g
  | SLink l => Some (ls_target_type l)
  | SAttr _ => None
  end.

Definition spec_is_many (spec : Spec) : bool :=
  match spec with
  | SData d => quantity_is_many (ds_quantity d)
  | SGroup g => quantity_is_many (gs_quantity g)
  | SLink l => quantity_is_many (ls_quantity l)
  | SAttr _ => false
  end.

(** [isinstance(spec, BaseStorageSpec)], [isinstance(spec, LinkSpec)] *)
Definition is_storage_spec (spec : Spec) : bool :=
  match spec with
  | SData _ | SGroup _ => true
  | _ => false
  end.

Definition is_link_spec (spec : Spec) : bool :=
  match spec with
  | SLink _ => true
  | _ => false
  end.

(** [spec.data_type_def is None and spec.data_type_inc is None] *)
Definition untyped (def inc : option string) : bool :=
  match def, inc with
  | None, None => true
  | _, _ => false
  end.

(** ** Name Deriver: [convert_dt_name], [__get_fields], [get_attr_names] *)

Module NameDeriver.

Definition is_upper (c : ascii) : bool :=
  let n := nat_of_ascii c in (65 <=? n)%nat && (n <=? 90)%nat.
Definition is_lower (c : ascii) : bool :=
  let n := nat_of_ascii c in (97 <=? n)%nat && (n <=? 122)%nat.
Definition is_digit (c : ascii) : bool :=
  let n := nat_of_ascii c in (48 <=? n)%nat && (n <=? 57)%nat.
Definition is_newline (c : ascii) : bool := (nat_of_ascii c =? 10)%nat.

(** [c.lower()].  A [string] holds characters below U+0100; of these
    [lower()] changes the capitals: A-Z, and U+00C0 to U+00DE without the
    multiplication sign U+00D7. *)
Definition has_lower (c : ascii) : bool :=
  let n := nat_of_ascii c in
  is_upper c || ((192 <=? n)%nat && (n <=? 222)%nat && negb (n =? 215)%nat).

Definition to_lower (c : ascii) : ascii :=
  if has_lower c then ascii_of_nat (nat_of_ascii c + 32) else c.

Definition underscore : ascii := "_"%char.

(** The scanner state of [re.sub('(.)([A-Z][a-z]+)', r'\1_\2', name)]:
    outside a match, on the capital of a match, inside its run of
    lower-case letters. *)
Inductive Scan1 := Outside | OnCapital | InRun.

Fixpoint sub_word (st : Scan1) (l : list ascii) : list ascii :=
  match l with
  | [] => []
  | c :: tl =>
      match st with
      | OnCapital => c :: sub_word InRun tl
      | _ =>
          if match st with InRun => is_lower c | _ => false end
          then c :: sub_word InRun tl
          else
            match tl with
            | u :: lo :: _ =>
                if negb (is_newline c) && is_upper u && is_lower lo
                then c :: underscore :: sub_word OnCapital tl
                else c :: sub_word Outside tl
            | _ => c :: sub_word Outside tl
            end
      end
  end.

(** [re.sub('([a-z0-9])([A-Z])', r'\1_\2', s1)]; [skip] is set on the
    capital that ends a match. *)
Fixpoint sub_camel (skip : bool) (l : list ascii) : list ascii :=
  match l with
  | [] => []
  | c :: tl =>
      if skip then c :: sub_camel false tl
      else
        match tl with
        | u :: _ =>
            if (is_lower c || is_digit c) && is_upper u
            then c :: underscore :: sub_camel true tl
            else c :: sub_camel false tl
        | [] => [c]
        end
  end.

Definition snake_case (name : string) : string :=
  string_of_list_ascii
    (map to_lower
       (sub_camel false (sub_word Outside (list_ascii_of_string name)))).

(** [ObjectMapper.convert_dt_name(spec)] *)
Definition convert_dt_name (spec : Spec) : Res string :=
  name ⇐ match spec with
         | SAttr _ | SLink _ =>
             Err (AttributeError (MsgNoAttribute "data_type_def"))
         | _ =>
             match spec_data_type_def spec, spec_data_type_inc spec with
             | Some n, _ => Ok n
             | None, Some n => Ok n
             | None, None =>
                 Err (ValueError
                        (MsgBadArgument "spec without name or data_type"))
             end
         end;
  let name := snake_case name in
  match last (list_ascii_of_string name) with
  | None => Err (LookupError MsgIndex)
  | Some c =>
      Ok (if negb (Ascii.eqb c "s"%char) && spec_is_many spec
          then name ++ "s" else name)
  end.

(** An [OrderedDict] from names to specs: assignment to a key that is
    present keeps its place. *)
Abbreviation odict := (list (string * Spec)).

Fixpoint odict_mem (k : string) (d : odict) : bool :=
  match d with
  | [] => false
  | (k', _) :: d' => String.eqb k k' || odict_mem k d'
  end.

Fixpoint odict_set (k : string) (v : Spec) (d : odict) : odict :=
  match d with
  | [] => [(k, v)]
  | (k', v') :: d' =>
      if String.eqb k k' then (k, v) :: d' else (k', v') :: odict_set k v d'
  end.

Definition keys (d : odict) : list string := map fst d.

(** ["_".join(name_stack)] *)
Fixpoint join_underscore (l : list string) : string :=
  match l with
  | [] => ""
  | [x] => x
  | x :: rest => x ++ "_" ++ join_underscore rest
  end.

(** The two mutable arguments of [__get_fields]. *)
Record Fields := mkFields {
  name_stack : list string;
  all_names : odict
}.

Fixpoint forM {A S} (f : A -> S -> Res S) (l : list A) (s : S) : Res S :=
  match l with
  | [] => Ok s
  | x :: rest => s' ⇐ f x s; forM f rest s'
  end.

(** The body of [__get_fields(name_stack, all_names, spec)]; [children]
    runs the loops over the sub-specs of a storage spec.  A spec that
    carries a data type returns before [name_stack.pop()]. *)
Definition get_fields_body (children : Fields -> Res Fields) (spec : Spec)
    (st : Fields) : Res Fields :=
  name ⇐ match spec_name spec with
         | Some n => Ok n
         | None => convert_dt_name spec
         end;
  let stack := (name_stack st ++ [name])%list in
  let name := if odict_mem name (all_names st)
              then join_underscore stack else name in
  let st := mkFields stack (odict_set name spec (all_names st)) in
  if is_storage_spec spec then
    if negb (untyped (spec_data_type_def spec) (spec_data_type_inc spec))
    then Ok st
    else
      st ⇐ children st;
      Ok (mkFields (removelast (name_stack st)) (all_names st))
  else Ok (mkFields (removelast (name_stack st)) (all_names st)).

Definition get_fields_attr (a : AttributeSpec) : Fields -> Res Fields :=
  get_fields_body (fun st => Ok st) (SAttr a).

Definition get_fields_link (l : LinkSpec) : Fields -> Res Fields :=
  get_fields_body (fun st => Ok st) (SLink l).

Definition get_fields_dataset (d : DatasetSpec) : Fields -> Res Fields :=
  get_fields_body (forM get_fields_attr (ds_attributes d)) (SData d).

Fixpoint get_fields_group (g : GroupSpec) : Fields -> Res Fields :=
  get_fields_body
    (fun st =>
       st ⇐ forM get_fields_attr (gs_attributes g) st;
       st ⇐ forM get_fields_dataset (gs_datasets g) st;
       st ⇐ forM get_fields_group (gs_groups g) st;
       forM get_fields_link (gs_links g) st)
    (SGroup g).

(** [ObjectMapper.__get_fields(name_stack, all_names, spec)] *)
Definition __get_fields (spec : Spec) : Fields -> Res Fields :=
  match spec with
  | SAttr a => get_fields_attr a
  | SData d => get_fields_dataset d
  | SGroup g => get_fields_group g
  | SLink l => get_fields_link l
  end.

(** One top-level call [cls.__get_fields(list(), names, subspec)]: the
    name stack is a fresh list, dropped afterwards. *)
Definition top_call (spec : Spec) (names : odict) : Res odict :=
  st ⇐ __get_fields spec (mkFields [] names); Ok (all_names st).

(** [ObjectMapper.get_attr_names(spec)] *)
Definition get_attr_names (spec : Spec) : Res odict :=
  match spec with
  | SData d => forM (fun a => top_call (SAttr a)) (ds_attributes d) []
  | SGroup g =>
      names ⇐ forM (fun a => top_call (SAttr a)) (gs_attributes g) [];
      names ⇐ forM (fun x => top_call (SGroup x)) (gs_groups g) names;
      names ⇐ forM (fun x => top_call (SData x)) (gs_datasets g) names;
      forM (fun x => top_call (SLink x)) (gs_links g) names
  | _ => Err (AttributeError (MsgNoAttribute "attributes"))
  end.

End NameDeriver.

(** ** Containers, proxies and builders *)

(** [isinstance(c, Data)], [isinstance(c, DataRegion)] *)
Inductive ContainerKind := KContainer | KData | KDataRegion.

Record Proxy := mkProxy {
  p_source : option string;
  p_location : string;
  p_namespace : option string;
  p_data_type : option string;
  p_candidates : list cid
}.

(** [container.parent]: none, another Container, or a Proxy *)
Inductive Parent :=
| PNone
| PContainer (c : cid)
| PProxy (p : Proxy).

Record Container := mkContainer {
  c_cls : nat;                          (* type(container) *)
  c_kind : ContainerKind;
  c_name : option string;
  c_parent : Parent;
  c_container_source : option string;
  c_modified : bool;
  c_data : PyVal;                       (* Data.data, DataRegion.data *)
  c_region : PyVal;                     (* DataRegion.region *)
  c_fields : gmap string PyVal          (* the other attributes *)
}.

Inductive BuilderKind := KGroup | KDataset | KLink.

(** Modelled from the spec: the builder tree of the builder layer
    (builders.py is not part of the sources), [GroupBuilder { name,
    source?, attributes, datasets, groups, links, parent? }],
    [DatasetBuilder { name, data, dtype?, attributes, parent? }],
    [LinkBuilder { name, target, parent? }], as one record; sub-builders
    are held by identity. *)
Record Builder := mkBuilder {
  b_kind : BuilderKind;
  b_name : string;
  b_parent : option bid;
  b_source : option string;
  b_attributes : gmap string PyVal;
  b_datasets : gmap string bid;
  b_groups : gmap string bid;
  b_links : gmap string bid;
  b_data : PyVal;
  b_dtype : Dtype;
  b_target : option bid
}.

(** ** Spec<->Field Index: the four dictionaries of an ObjectMapper *)

(** An override registered with [@ObjectMapper.object_attr(name)]: a
    function of the mapper's subclass, here of the containers and the
    container asked about. *)
Definition Handler : Type := gmap nat Container -> cid -> Res PyVal.

Record ObjectMapper := mkObjectMapper {
  om_spec : Spec;
  om_spec2attr : gmap nat string;       (* keyed by the spec's identity *)
  om_attr2spec : gmap string Spec;
  om_spec2carg : gmap nat string;
  om_carg2spec : gmap string Spec;
  om_obj_attrs : gmap string Handler    (* cls.obj_attrs *)
}.

Module Mapper.

(** [ObjectMapper.map_attr(attr_name, spec)] *)
Definition map_attr (attr_name : string) (spec : Spec) (m : ObjectMapper)
    : ObjectMapper :=
  mkObjectMapper (om_spec m)
    (<[spec_id spec := attr_name]> (om_spec2attr m))
    (<[attr_name := spec]> (om_attr2spec m))
    (om_spec2carg m) (om_carg2spec m) (om_obj_attrs m).

(** [ObjectMapper.get_attr_spec(attr_name)] *)
Definition get_attr_spec (m : ObjectMapper) (attr_name : string)
    : option Spec :=
  om_attr2spec m !! attr_name.

(** [ObjectMapper.get_carg_spec(carg_name)] *)
Definition get_carg_spec (m : ObjectMapper) (carg_name : string)
    : option Spec :=
  om_attr2spec m !! carg_name.

(** [ObjectMapper.map_const_arg(const_arg, spec)] *)
Definition map_const_arg (const_arg : string) (spec : Spec)
    (m : ObjectMapper) : ObjectMapper :=
  mkObjectMapper (om_spec m) (om_spec2attr m) (om_attr2spec m)
    (<[spec_id spec := const_arg]> (om_spec2carg m))
    (<[const_arg := spec]> (om_carg2spec m))
    (om_obj_attrs m).

(** [ObjectMapper.unmap(spec)] *)
Definition unmap (spec : Spec) (m : ObjectMapper) : ObjectMapper :=
  mkObjectMapper (om_spec m)
    (delete (spec_id spec) (om_spec2attr m)) (om_attr2spec m)
    (delete (spec_id spec) (om_spec2carg m)) (om_carg2spec m)
    (om_obj_attrs m).

(** [ObjectMapper.map_spec(attr_carg, spec)] *)
Definition map_spec (attr_carg : string) (spec : Spec) (m : ObjectMapper)
    : ObjectMapper :=
  map_attr attr_carg spec (map_const_arg attr_carg spec m).

(** [ObjectMapper.get_attribute(spec)], [ObjectMapper.get_const_arg(spec)] *)
Definition get_attribute (m : ObjectMapper) (spec : Spec) : option string :=
  om_spec2attr m !! spec_id spec.

Definition get_const_arg (m : ObjectMapper) (spec : Spec) : option string :=
  om_spec2carg m !! spec_id spec.

(** [ObjectMapper.__map_spec(spec)] over the items of the ordered
    dictionary, in order *)
Definition map_items (items : list (string * Spec)) (m : ObjectMapper)
    : ObjectMapper :=
  fold_left (fun m kv => map_spec (fst kv) (snd kv) m) items m.

(** [ObjectMapper.__init__(spec)]; [obj_attrs] is the class's table of
    overrides. *)
Definition init (obj_attrs : gmap string Handler) (spec : Spec)
    : Res ObjectMapper :=
  attr_names ⇐ NameDeriver.get_attr_names spec;
  Ok (map_items attr_names (mkObjectMapper spec ∅ ∅ ∅ ∅ obj_attrs)).

End Mapper.

(** ** The state of a build session *)

(** A warning, by category, with the operands of its message. *)
Inductive Warning :=
| MissingRequiredWarning (what : string) (spec_name : option string)
    (builder_name : string) (data_type_def : option string)
| OrphanContainerWarning (value_name : option string) (value_type : PyVal)
    (builder_name : string) (data_type_def : option string).

(** The containers and builders alive, the two dictionaries of the
    BuildManager, the mappers memoised by the TypeMap, and the warnings
    emitted so far. *)
Record State := mkState {
  containers : gmap nat Container;
  builders : gmap nat Builder;
  mgr_builders : gmap nat nat;          (* BuildManager.__builders *)
  mgr_containers : gmap nat nat;        (* BuildManager.__containers *)
  mappers : gmap nat ObjectMapper;      (* TypeMap.__mappers *)
  warnings : list Warning
}.

Definition set_containers (f : gmap nat Container -> gmap nat Container)
    (s : State) : State :=
  mkState (f (containers s)) (builders s) (mgr_builders s) (mgr_containers s)
    (mappers s) (warnings s).

Definition set_builders (f : gmap nat Builder -> gmap nat Builder)
    (s : State) : State :=
  mkState (containers s) (f (builders s)) (mgr_builders s) (mgr_containers s)
    (mappers s) (warnings s).

Definition set_mgr (f g : gmap nat nat -> gmap nat nat) (s : State) : State :=
  mkState (containers s) (builders s) (f (mgr_builders s))
    (g (mgr_containers s)) (mappers s) (warnings s).

Definition set_mappers (f : gmap nat ObjectMapper -> gmap nat ObjectMapper)
    (s : State) : State :=
  mkState (containers s) (builders s) (mgr_builders s) (mgr_containers s)
    (f (mappers s)) (warnings s).

Definition add_warning (w : Warning) (s : State) : State :=
  mkState (containers s) (builders s) (mgr_builders s) (mgr_containers s)
    (mappers s) (warnings s ++ [w])%list.

(** A computation that reads and writes the state and returns or raises;
    the state survives an exception. *)
Definition M (A : Type) : Type := State -> Res A * State.

Definition ret {A} (a : A) : M A := fun s => (Ok a, s).

Definition m_bind {A B} (m : M A) (k : A -> M B) : M B := fun s =>
  match m s with
  | (Ok a, s') => k a s'
  | (Err e, s') => (Err e, s')
  end.

Notation "x ← y ; z" := (m_bind y (fun x => z))
  (at level 20, y at level 100, z at level 200, only parsing) : py_scope.

Definition raise {A} (e : Exn) : M A := fun s => (Err e, s).
Definition lift {A} (r : Res A) : M A := fun s => (r, s).
Definition gets {A} (f : State -> A) : M A := fun s => (Ok (f s), s).
Definition modify (f : State -> State) : M unit := fun s => (Ok tt, f s).

(** [try: m except Exception as ex: raise_from(Exception(msg), ex)] *)
Definition wrap_errors {A} (msg : Msg) (m : M A) : M A := fun s =>
  match m s with
  | (Err e, s') => (Err (Wrapped msg e), s')
  | r => r
  end.

(** [warnings.warn(msg, category)] *)
Definition warn (w : Warning) : M unit := modify (add_warning w).

(** [for x in l: f(x)] *)
Fixpoint for_each {A} (f : A -> M unit) (l : list A) : M unit :=
  match l with
  | [] => ret tt
  | x :: rest => _ ← f x; for_each f rest
  end.

(** [[f(x) for x in l]] *)
Fixpoint for_collect {A B} (f : A -> M B) (l : list A) : M (list B) :=
  match l with
  | [] => ret []
  | x :: rest => y ← f x; ys ← for_collect f rest; ret (y :: ys)
  end.

Definition get_container (c : cid) : M Container := fun s =>
  match containers s !! c with
  | Some x => (Ok x, s)
  | None => (Err (LookupError MsgDangling), s)
  end.

Definition get_builder (b : bid) : M Builder := fun s =>
  match builders s !! b with
  | Some x => (Ok x, s)
  | None => (Err (LookupError MsgDangling), s)
  end.

(** Unfold the monad operations in the goal and in the hypotheses. *)
Ltac unfold_monad :=
  unfold m_bind, ret, raise, lift, gets, modify, warn, wrap_errors,
    get_container, get_builder in *.

(** Reduce the projections of a state that was updated. *)
Ltac state_simpl :=
  cbn [containers builders mgr_builders mgr_containers mappers warnings
       set_containers set_builders set_mgr set_mappers add_warning] in *.


(** ** The builder layer *)

Module Builders.

Definition empty (kind : BuilderKind) (name : string) (parent : option bid)
    (source : option string) : Builder :=
  mkBuilder kind name parent source ∅ ∅ ∅ ∅ VNone DtNone None.

(** A new object takes an identity no live builder has. *)
Definition alloc (b : Builder) : M bid := fun s =>
  let i := fresh (dom (builders s)) in
  (Ok i, set_builders (insert i b) s).

(** Replace the record of a live builder. *)
Definition update (b : bid) (f : Builder -> Builder) : M unit :=
  x ← get_builder b; modify (set_builders (insert b (f x))).

(** Modelled from the spec: [GroupBuilder(name, parent?, source?)] of the
    builder layer; the name is required. *)
Definition GroupBuilder (name : option string) (parent : option bid)
    (source : option string) : M bid :=
  match name with
  | Some n => alloc (empty KGroup n parent source)
  | None => raise (TypeError (MsgBadArgument "name"))
  end.

(** Modelled from the spec: [DatasetBuilder(name, data, parent?, source?,
    dtype?)] *)
Definition DatasetBuilder (name : option string) (data : PyVal)
    (parent : option bid) (source : option string) (dtype : Dtype) : M bid :=
  match name with
  | Some n =>
      alloc (mkBuilder KDataset n parent source ∅ ∅ ∅ ∅ data dtype None)
  | None => raise (TypeError (MsgBadArgument "name"))
  end.

(** Modelled from the spec: [LinkBuilder(target, name?, parent?)]; a link
    built without a name takes the name of its target. *)
Definition LinkBuilder (target : bid) (name : option string)
    (parent : option bid) : M bid :=
  t ← get_builder target;
  alloc (mkBuilder KLink (default (b_name t) name) parent None
           ∅ ∅ ∅ ∅ VNone DtNone (Some target)).

Definition with_attribute (k : string) (v : PyVal) (x : Builder) : Builder :=
  mkBuilder (b_kind x) (b_name x) (b_parent x) (b_source x)
    (<[k := v]> (b_attributes x)) (b_datasets x) (b_groups x) (b_links x)
    (b_data x) (b_dtype x) (b_target x).

Definition with_dataset (k : string) (d : bid) (x : Builder) : Builder :=
  mkBuilder (b_kind x) (b_name x) (b_parent x) (b_source x)
    (b_attributes x) (<[k := d]> (b_datasets x)) (b_groups x) (b_links x)
    (b_data x) (b_dtype x) (b_target x).

Definition with_group (k : string) (g : bid) (x : Builder) : Builder :=
  mkBuilder (b_kind x) (b_name x) (b_parent x) (b_source x)
    (b_attributes x) (b_datasets x) (<[k := g]> (b_groups x)) (b_links x)
    (b_data x) (b_dtype x) (b_target x).

Definition with_link (k : string) (l : bid) (x : Builder) : Builder :=
  mkBuilder (b_kind x) (b_name x) (b_parent x) (b_source x)
    (b_attributes x) (b_datasets x) (b_groups x) (<[k := l]> (b_links x))
    (b_data x) (b_dtype x) (b_target x).

Definition with_dtype (dt : Dtype) (x : Builder) : Builder :=
  mkBuilder (b_kind x) (b_name x) (b_parent x) (b_source x)
    (b_attributes x) (b_datasets x) (b_groups x) (b_links x)
    (b_data x) dt (b_target x).

(** Modelled from the spec: the mutators [set_attribute(name, value)],
    [set_group], [set_dataset], [set_link] and [add_dataset(name, data,
    dtype?)] of the builder layer; a sub-builder is filed under its own
    name. *)
Definition set_attribute (b : bid) (k : string) (v : PyVal) : M unit :=
  update b (with_attribute k v).

Definition set_group (b : bid) (g : bid) : M unit :=
  x ← get_builder g; update b (with_group (b_name x) g).

Definition set_dataset (b : bid) (d : bid) : M unit :=
  x ← get_builder d; update b (with_dataset (b_name x) d).

Definition set_link (b : bid) (l : bid) : M unit :=
  x ← get_builder l; update b (with_link (b_name x) l).

Definition add_dataset (b : bid) (name : option string) (data : PyVal)
    (dtype : Dtype) : M bid :=
  _ ← get_builder b;
  d ← DatasetBuilder name data (Some b) None dtype;
  _ ← set_dataset b d;
  ret d.

(** [rendered_obj.dtype = dtype] *)
Definition set_dtype (b : bid) (dt : Dtype) : M unit :=
  update b (with_dtype dt).

(** Modelled from the spec: [is_empty()] of the builder layer; a group
    builder is empty when it holds no attribute, dataset, group or
    link. *)
Definition is_empty (x : Builder) : bool :=
  bool_decide (b_attributes x = ∅) && bool_decide (b_datasets x = ∅)
  && bool_decide (b_groups x = ∅) && bool_decide (b_links x = ∅).

End Builders.

(** ** TypeMap: the registry *)

(** A mapper class: its table of [object_attr] overrides, and what its
    [__init__] does to the mapper after [ObjectMapper.__init__]. *)
Record MapperCls := mkMapperCls {
  mc_obj_attrs : gmap string Handler;
  mc_customise : ObjectMapper -> ObjectMapper
}.

(** The standard [ObjectMapper] class. *)
Definition ObjectMapper_cls : MapperCls := mkMapperCls ∅ (fun m => m).

(** The tables of a TypeMap that a build reads.  [tm_type_key] is the
    spec layer's [type_key()], [tm_get_spec] its
    [NamespaceCatalog.get_spec(ns, dt)] and [tm_mro] the [__mro__] of a
    container class; they are not part of the sources. *)
Record TypeMap := mkTypeMap {
  tm_type_key : string;
  tm_data_types : gmap nat (string * string);   (* __data_types *)
  tm_mapper_cls : gmap nat MapperCls;           (* __mapper_cls *)
  tm_default_mapper_cls : MapperCls;
  tm_get_spec : string -> string -> option Spec;
  tm_mro : nat -> list nat
}.

(** ** Python built-ins on values *)

(** [sub in s] on strings *)
Fixpoint contains (sub s : string) : bool :=
  String.prefix sub s ||
  match s with
  | EmptyString => false
  | String _ s' => contains sub s'
  end.

(** ['text' in dtype] for a declared dtype *)
Definition in_dtype (sub : string) (dt : Dtype) : Res bool :=
  match dt with
  | DtNone => Err (TypeError (MsgBadArgument "NoneType is not iterable"))
  | DtStr s => Ok (contains sub s)
  | _ => Ok false
  end.

(** [iter(v)] as the list of the items *)
Definition py_iter (v : PyVal) : Res (list PyVal) :=
  match v with
  | VList l | VTuple l | VSet l | VNdarray _ l => Ok l
  | VDict l => Ok (map fst l)
  | VText s => Ok (map (fun c => VText (String c "")) (list_ascii_of_string s))
  | VBytes s => Ok (map (fun c => VInt (Z.of_nat (nat_of_ascii c)))
                      (list_ascii_of_string s))
  | _ => Err (TypeError (MsgBadArgument "not iterable"))
  end.

(** [hasattr(v, '__len__')].  A DataIO (data_utils.py is not part of
    the sources) defines [__len__], the length of the data it wraps, and
    no [__getitem__]; a Container and a chunk iterator define no
    [__len__]. *)
Definition has_len (v : PyVal) : bool :=
  match v with
  | VText _ | VBytes _ | VList _ | VTuple _ | VSet _ | VDict _
  | VNdarray _ _ | VDataIO _ => true
  | _ => false
  end.

(** [len(v)] for a value with [__len__] *)
Fixpoint py_len (v : PyVal) : nat :=
  match v with
  | VText s | VBytes s => String.length s
  | VList l | VTuple l | VSet l | VNdarray _ l => length l
  | VDict l => length l
  | VDataIO d => py_len d
  | _ => O
  end.

(** [bool(v)]; an ndarray of several cells has no truth value. *)
Definition py_truthy (v : PyVal) : Res bool :=
  match v with
  | VNone => Ok false
  | VBool b => Ok b
  | VInt z => Ok (negb (z =? 0))
  | VFloat f => Ok (negb (Numpy.is_zero f))
  | VNp _ (Numpy.PInt z) => Ok (negb (z =? 0))
  | VNp _ (Numpy.PFloat f) => Ok (negb (Numpy.is_zero f))
  | VNp _ (Numpy.PBool b) => Ok b
  | VNdarray _ (_ :: _ :: _) => Err (ValueError (MsgBadArgument "truth value"))
  | VNdarray _ [VNp _ (Numpy.PInt z)] => Ok (negb (z =? 0))
  | VNdarray _ [VNp _ (Numpy.PBool b)] => Ok b
  | VNdarray _ [VNp _ (Numpy.PFloat f)] => Ok (negb (Numpy.is_zero f))
  | VNdarray _ [] => Ok false
  | VText _ | VBytes _ | VList _ | VTuple _ | VSet _ | VDict _
  | VDataIO _ =>
      Ok (negb (Nat.eqb (py_len v) 0))
  | _ => Ok true
  end.

(** [isinstance(t, (integer_types, float, complex, bool))]; of the numpy
    scalars, float64 derives from float and complex128 from complex. *)
Definition is_number (t : PyVal) : bool :=
  match t with
  | VInt _ | VFloat _ | VComplex | VBool _ => true
  | VNp Numpy.float64 _ | VNp Numpy.complex128 _ => true
  | _ => false
  end.

(** [isinstance(t, (Container, text_type, binary_type))] *)
Definition is_container_or_string (t : PyVal) : bool :=
  match t with
  | VContainer _ | VText _ | VBytes _ => true
  | _ => false
  end.

Definition is_none (v : PyVal) : bool :=
  match v with
  | VNone => true
  | _ => false
  end.

Definition parent_value (p : Parent) : PyVal :=
  match p with
  | PNone => VNone
  | PContainer c => VContainer c
  | PProxy _ => VObject
  end.

Definition opt_text (o : option string) : PyVal :=
  match o with
  | Some s => VText s
  | None => VNone
  end.

(** [isinstance(c, Data)], [isinstance(c, DataRegion)] *)
Definition is_data (k : ContainerKind) : bool :=
  match k with
  | KContainer => false
  | _ => true
  end.

Definition is_data_region (k : ContainerKind) : bool :=
  match k with
  | KDataRegion => true
  | _ => false
  end.

(** [getattr(container, name, None)] *)
Definition getattr (c : Container) (name : string) : PyVal :=
  if String.eqb name "name" then opt_text (c_name c)
  else if String.eqb name "parent" then parent_value (c_parent c)
  else if String.eqb name "container_source"
       then opt_text (c_container_source c)
  else if String.eqb name "modified" then VBool (c_modified c)
  else if String.eqb name "data" && is_data (c_kind c) then c_data c
  else if String.eqb name "region" && is_data_region (c_kind c)
       then c_region c
  else default VNone (c_fields c !! name).

(** [value.parent is not parent_container] *)
Definition parent_is_not (p : Parent) (parent_container : cid) : bool :=
  match p with
  | PContainer c => negb (Nat.eqb c parent_container)
  | _ => true
  end.

(** [bool(container_source)] *)
Definition source_truthy (o : option string) : bool :=
  match o with
  | Some s => negb (String.eqb s "")
  | None => false
  end.

(** ** ObjectMapper: the build path *)

Section BuildPath.
Variable py : PyLib.
Variable tm : TypeMap.
(** [BuildManager.build(container, source)], called back by the mapper *)
Variable mgr_build : cid -> option string -> M bid.

(** [TypeMap.get_container_ns_dt(obj)]: [(None, None)] when the class is
    not registered *)
Definition get_container_ns_dt (c : Container) : option (string * string) :=
  tm_data_types tm !! c_cls c.

(** [getattr(value, type_key)]: the attribute of the instance, or the one
    [register_container_type] set on a class of its [__mro__] *)
Definition getattr_type_key (c : Container) : Res PyVal :=
  match c_fields c !! tm_type_key tm with
  | Some v => Ok v
  | None =>
      match list_find (fun k => is_Some (tm_data_types tm !! k))
              (tm_mro tm (c_cls c)) with
      | Some (_, k) =>
          Ok (opt_text (snd <$> (tm_data_types tm !! k)))
      | None => Err (AttributeError (MsgNoAttribute (tm_type_key tm)))
      end
  end.

(** [TypeMap.get_map(obj)] for a Container *)
Definition get_map (c : cid) : M ObjectMapper :=
  x ← get_container c;
  match get_container_ns_dt x with
  | None => raise (ValueError MsgNotMapped)
  | Some (namespace, data_type) =>
      match tm_get_spec tm namespace data_type with
      | None => raise (LookupError (MsgNoSpec namespace data_type))
      | Some spec =>
          memo ← gets (fun s => mappers s !! c_cls x);
          match memo with
          | Some mapper => ret mapper
          | None =>
              let mapper_cls :=
                match list_find (fun k => is_Some (tm_mapper_cls tm !! k))
                        (tm_mro tm (c_cls x)) with
                | Some (_, k) =>
                    default (tm_default_mapper_cls tm) (tm_mapper_cls tm !! k)
                | None => tm_default_mapper_cls tm
                end in
              mapper ← lift (Mapper.init (mc_obj_attrs mapper_cls) spec);
              let mapper := mc_customise mapper_cls mapper in
              _ ← modify (set_mappers (insert (c_cls x) mapper));
              ret mapper
          end
      end
  end.

Definition top_default_name (spec : Spec) : option string :=
  match spec with
  | SData d => ds_default_name d
  | SGroup g => gs_default_name g
  | _ => None
  end.

(** [ObjectMapper.get_builder_name(container)] *)
Definition om_get_builder_name (m : ObjectMapper) (c : cid) : M string :=
  match spec_name (om_spec m) with
  | Some n => ret n
  | None =>
      x ← get_container c;
      match c_name x with
      | Some n => ret n
      | None =>
          match top_default_name (om_spec m) with
          | Some n => ret n
          | None => raise (ValueError MsgNoBuilderName)
          end
      end
  end.

(** [TypeMap.get_builder_name(container)], which
    [BuildManager.get_builder_name] forwards to *)
Definition get_builder_name (c : cid) : M string :=
  attr_map ← get_map c; om_get_builder_name attr_map c.

(** [list(map(f, value))] *)
Definition map_values (f : PyVal -> Res PyVal) (value : PyVal) : Res PyVal :=
  items ⇐ py_iter value;
  l ⇐ (fix go (l : list PyVal) : Res (list PyVal) :=
         match l with
         | [] => Ok []
         | x :: rest => y ⇐ f x; ys ⇐ go rest; Ok (y :: ys)
         end) items;
  Ok (VList l).

(** [ObjectMapper.__convert_value(value, spec)] *)
Definition __convert_value (value : PyVal) (spec : Spec) : Res PyVal :=
  match spec with
  | SAttr a =>
      is_text ⇐ in_dtype "text" (attr_dtype a);
      if is_text then
        match attr_shape a with
        | Some _ => map_values (text_type py) value
        | None => text_type py value
        end
      else Ok value
  | SData d =>
      match ds_data_type_inc d with
      | Some _ => Ok value
      | None =>
          match ds_dtype d with
          | DtNone => Ok value
          | dt =>
              is_text ⇐ in_dtype "text" dt;
              is_ascii ⇐ (if is_text then Ok false
                         else in_dtype "ascii" dt);
              is_iso ⇐ (if is_text || is_ascii then Ok false
                        else in_dtype "isodatetime" dt);
              let string_type :=
                if is_text then Some (text_type py)
                else if is_ascii then Some (binary_type py)
                else if is_iso then Some (isoformat py)
                else None in
              match string_type with
              | Some f =>
                  match ds_dims d with
                  | Some _ => map_values f value
                  | None => f value
                  end
              | None => Ok value
              end
          end
      end
  | _ => Ok value
  end.

(** [ObjectMapper.__get_override_attr(name, container, manager)] *)
Definition __get_override_attr (m : ObjectMapper) (name : string) (c : cid)
    : M PyVal :=
  match om_obj_attrs m !! name with
  | Some func => cs ← gets containers; lift (func cs c)
  | None => ret VNone
  end.

(** [ObjectMapper.get_attr_value(spec, container, manager)] *)
Definition get_attr_value (m : ObjectMapper) (spec : Spec) (c : cid)
    : M PyVal :=
  match Mapper.get_attribute m spec with
  | None => ret VNone
  | Some attr_name =>
      attr_val ← __get_override_attr m attr_name c;
      if is_none attr_val then
        x ← get_container c;
        let attr_val := getattr x attr_name in
        if is_none attr_val then ret VNone
        else lift (__convert_value attr_val spec)
      else ret attr_val
  end.

(** The [for t in tmp] loop of [__is_reftype]: it stops at a number, or
    at a sized value that is not a Container or a string and is not
    empty; only then is [tmptmp] assigned. *)
Inductive ScanStop := AtNumber | AtSized | AtEnd.

Fixpoint scan_items (l : list PyVal) : ScanStop :=
  match l with
  | [] => AtEnd
  | t :: rest =>
      if is_number t then AtNumber
      else if has_len t && negb (is_container_or_string t)
              && negb (Nat.eqb (py_len t) 0)
      then AtSized
      else scan_items rest
  end.

(** [ObjectMapper.__is_reftype(data)] *)
Fixpoint __is_reftype (tmp : PyVal) : Res bool :=
  match tmp with
  | VList l | VTuple l | VNdarray _ l =>
      match l with
      | [] => Err (LookupError MsgIndex)
      | first :: _ =>
          match scan_items l with
          | AtSized => Ok false
          | _ => __is_reftype first
          end
      end
  | VSet _ => Err (TypeError (MsgBadArgument "set is not subscriptable"))
  | VDict items =>
      (fix find (l : list (PyVal * PyVal)) : Res bool :=
         match l with
         | [] => Err (LookupError MsgIndex)
         | (VInt 0, v) :: _ =>
             match scan_items (map fst items) with
             | AtSized => Ok false
             | _ => __is_reftype v
             end
         | _ :: rest => find rest
         end) items
  | VDataIO _ =>
      Err (TypeError (MsgBadArgument "DataIO is not subscriptable"))
  | VContainer _ => Ok true
  | _ => Ok false
  end.

(** [ObjectMapper.__is_empty(val)] *)
Definition __is_empty (val : PyVal) : bool :=
  match val with
  | VNone => true
  | _ =>
      let val := match val with VDataIO d => d | _ => val end in
      match val with
      | VChunkIterator => false
      | _ => has_len val && Nat.eqb (py_len val) 0
      end
  end.

(** [manager.build(x)] on a value: the argument must be a Container. *)
Definition build_value (x : PyVal) (source : option string) : M bid :=
  match x with
  | VContainer c => mgr_build c source
  | _ => raise (TypeError (MsgBadArgument "container"))
  end.

(** [x.data], [d.slice], [d.target] on a value *)
Definition data_of (x : PyVal) : M PyVal :=
  match x with
  | VContainer c =>
      k ← get_container c;
      match c_kind k with
      | KContainer => raise (AttributeError (MsgNoAttribute "data"))
      | _ => ret (c_data k)
      end
  | VDataIO d => ret d
  | _ => raise (AttributeError (MsgNoAttribute "data"))
  end.

(** [ObjectMapper.__get_ref_builder(dtype, shape, container, manager)];
    [has_shape] is [shape is not None]. *)
Definition __get_ref_builder (dtype : RefSpec) (has_shape : bool)
    (container : PyVal) : M PyVal :=
  if is_region dtype then
    if negb has_shape then
      match container with
      | VContainer c =>
          k ← get_container c;
          match c_kind k with
          | KDataRegion =>
              b ← build_value (c_data k) None;
              ret (VRegionBuilder (c_region k) b)
          | _ => raise (ValueError MsgMustBeDataRegion)
          end
      | _ => raise (ValueError MsgMustBeDataRegion)
      end
    else
      data ← data_of container;
      items ← lift (py_iter data);
      l ← for_collect (fun d =>
             match d with
             | VRegionSlice slice target =>
                 b ← mgr_build target None; ret (VRegionBuilder slice b)
             | _ => raise (AttributeError (MsgNoAttribute "slice"))
             end) items;
      ret (VList l)
  else
    if negb has_shape then
      match container with
      | VContainer c => b ← mgr_build c None; ret (VReferenceBuilder b)
      | _ =>
          data ← data_of container;
          b ← build_value data None;
          ret (VReferenceBuilder b)
      end
    else
      data ← data_of container;
      items ← lift (py_iter data);
      l ← for_collect (fun d =>
             match d with
             | VRegionSlice _ target =>
                 b ← mgr_build target None; ret (VReferenceBuilder b)
             | _ => raise (AttributeError (MsgNoAttribute "target"))
             end) items;
      ret (VList l).

Definition is_dt_none (dt : Dtype) : bool :=
  match dt with
  | DtNone => true
  | _ => false
  end.

(** The first part of the loop body of [__add_attributes]: the value of
    the attribute, from the spec's literal value, the container or the
    default, turned into a reference or converted to the spec's dtype. *)
Definition attribute_value (m : ObjectMapper) (spec : AttributeSpec)
    (container : cid) (source : option string) : M PyVal :=
  v ← (if negb (is_none (attr_value spec)) then ret (attr_value spec)
       else
         v ← get_attr_value m (SAttr spec) container;
         ret (if is_none v then attr_default_value spec else v));
  match attr_dtype spec with
  | DtRef r =>
      is_ref ← lift (__is_reftype v);
      if negb is_ref then
        raise (ValueError (if is_none v then MsgRefNotFound (target_type r)
                           else MsgRefInvalidType (attr_name spec)))
      else
        target_builder ← build_value v source;
        ret (VReferenceBuilder target_builder)
  | dt =>
      if is_none v then ret VNone
      else
        wrap_errors (MsgCouldNotConvert (Some (attr_name spec)))
          (r ← lift (convert_dtype py dt v); ret (fst r))
  end.

(** The MissingRequiredWarning of [__add_attributes] and
    [__add_datasets], on a builder whose record is [bl]. *)
Definition missing_required (what : string) (m : ObjectMapper)
    (spec_name : option string) (bl : Builder) : Warning :=
  MissingRequiredWarning what spec_name (b_name bl)
    (spec_data_type_def (om_spec m)).

(** The loop body of [__add_attributes]: a null value is not written; it
    is warned about when the spec is required. *)
Definition add_attribute (m : ObjectMapper) (builder : bid)
    (container : cid) (source : option string) (spec : AttributeSpec)
    : M unit :=
  v ← attribute_value m spec container source;
  if is_none v then
    if attr_required spec then
      b ← get_builder builder;
      warn (missing_required "attribute" m (Some (attr_name spec)) b)
    else ret tt
  else Builders.set_attribute builder (attr_name spec) v.

(** [ObjectMapper.__add_attributes(builder, attributes, container,
    build_manager, source)] *)
Definition __add_attributes (m : ObjectMapper) (builder : bid)
    (attributes : list AttributeSpec) (container : cid)
    (source : option string) : M unit :=
  for_each (add_attribute m builder container source) attributes.

(** [builder.set_link(LinkBuilder(rendered_obj, spec.name, builder))] *)
Definition link_to (builder : bid) (spec : Spec) (rendered_obj : bid)
    : M unit :=
  l ← Builders.LinkBuilder rendered_obj (spec_name spec) (Some builder);
  Builders.set_link builder l.

(** [if value.parent is None: warnings.warn(msg, OrphanContainerWarning)];
    the message reads [getattr(value, type_key)] and [builder.name]. *)
Definition orphan_warning (m : ObjectMapper) (builder : bid) (x : Container)
    : M unit :=
  match c_parent x with
  | PNone =>
      tk ← lift (getattr_type_key x);
      b ← get_builder builder;
      warn (OrphanContainerWarning (c_name x) tk (b_name b)
              (spec_data_type_def (om_spec m)))
  | _ => ret tt
  end.

(** The branch of [__add_containers] for a value that is a Container. *)
Definition add_container (m : ObjectMapper) (builder : bid) (spec : Spec)
    (value : cid) (source : option string) (parent_container : cid)
    : M unit :=
  x ← get_container value;
  _ ← orphan_warning m builder x;
  if c_modified x then
    rendered_obj ← mgr_build value source;
    x ← get_container value;
    if is_link_spec spec || parent_is_not (c_parent x) parent_container
    then link_to builder spec rendered_obj
    else
      match spec with
      | SData d =>
          r ← get_builder rendered_obj;
          _ ← match b_kind r with
              | KDataset => ret tt
              | _ => raise (AttributeError (MsgNoAttribute "dtype"))
              end;
          _ ← (if is_dt_none (b_dtype r) && negb (is_dt_none (ds_dtype d))
               then
                 vd ← lift (convert_dtype py (ds_dtype d) VNone);
                 Builders.set_dtype rendered_obj (snd vd)
               else ret tt);
          Builders.set_dataset builder rendered_obj
      | _ => Builders.set_group builder rendered_obj
      end
  else if source_truthy (c_container_source x) then
    p ← get_container parent_container;
    if negb (bool_decide (c_container_source x = c_container_source p))
       || parent_is_not (c_parent x) parent_container
    then
      rendered_obj ← mgr_build value source;
      link_to builder spec rendered_obj
    else ret tt
  else raise (ValueError MsgUnmodifiedNoSource).

(** [ObjectMapper.__add_containers(builder, spec, value, build_manager,
    source, parent_container)] *)
Fixpoint __add_containers (m : ObjectMapper) (builder : bid) (spec : Spec)
    (value : PyVal) (source : option string) (parent_container : cid)
    {struct value} : M unit :=
  let each :=
    fix each (values : list PyVal) : M unit :=
      match values with
      | [] => ret tt
      | container :: rest =>
          t ← lift (py_truthy container);
          _ ← (if t then
                 __add_containers m builder spec container source
                   parent_container
               else ret tt);
          each rest
      end in
  match value with
  | VContainer v => add_container m builder spec v source parent_container
  | VList values | VTuple values => each values
  | VDict items =>
      (fix each_value (items : list (PyVal * PyVal)) : M unit :=
         match items with
         | [] => ret tt
         | (_, container) :: rest =>
             t ← lift (py_truthy container);
             _ ← (if t then
                    __add_containers m builder spec container source
                      parent_container
                  else ret tt);
             each_value rest
         end) items
  | _ => raise (ValueError MsgExpectedContainer)
  end.

(** [ObjectMapper.__add_links(builder, links, container, build_manager,
    source)] *)
Definition __add_links (m : ObjectMapper) (builder : bid)
    (links : list LinkSpec) (container : cid) (source : option string)
    : M unit :=
  for_each (fun spec =>
    attr_value ← get_attr_value m (SLink spec) container;
    t ← lift (py_truthy attr_value);
    if negb t then ret tt
    else __add_containers m builder (SLink spec) attr_value source container)
    links.

(** [ObjectMapper.__add_datasets(builder, datasets, container,
    build_manager, source)] *)
Definition __add_datasets (m : ObjectMapper) (builder : bid)
    (datasets : list DatasetSpec) (container : cid)
    (source : option string) : M unit :=
  for_each (fun spec =>
    attr_value ← get_attr_value m (SData spec) container;
    if __is_empty attr_value then
      if ds_required spec then
        b ← get_builder builder;
        warn (missing_required "dataset" m (ds_name spec) b)
      else ret tt
    else if untyped (ds_data_type_def spec) (ds_data_type_inc spec) then
      b ← get_builder builder;
      sub_builder ←
        match ds_name spec ≫= (fun n => b_datasets b !! n) with
        | Some sub_builder => ret sub_builder
        | None =>
            r ← wrap_errors (MsgCouldNotConvert (ds_name spec))
                  (lift (convert_dtype py (ds_dtype spec) attr_value));
            Builders.add_dataset builder (ds_name spec) (fst r) (snd r)
        end;
      __add_attributes m sub_builder (ds_attributes spec) container source
    else __add_containers m builder (SData spec) attr_value source container)
    datasets.

(** [isinstance(spec.quantity, int)] *)
Definition quantity_is_int (q : Quantity) : bool :=
  match q with
  | QInt _ => true
  | _ => false
  end.

(** The values a non-Container sub-group iterates over:
    [iter(attr_value)], or [iter(attr_value.values())] for a dict; a
    value that is not a list, tuple, set or dict gives none. *)
Definition group_items (attr_value : PyVal) : list PyVal :=
  match attr_value with
  | VList l | VTuple l | VSet l => l
  | VDict l => map snd l
  | _ => []
  end.

(** The loop body of [__add_groups] *)
Fixpoint add_group (m : ObjectMapper) (container : cid)
    (source : option string) (spec : GroupSpec) (builder : bid) : M unit :=
  if untyped (gs_data_type_def spec) (gs_data_type_inc spec) then
    b ← get_builder builder;
    sub_builder ←
      match gs_name spec ≫= (fun n => b_groups b !! n) with
      | Some sub_builder => ret sub_builder
      | None => Builders.GroupBuilder (gs_name spec) None source
      end;
    _ ← __add_attributes m sub_builder (gs_attributes spec) container source;
    _ ← __add_datasets m sub_builder (gs_datasets spec) container source;
    _ ← match Mapper.get_attribute m (SGroup spec) with
        | Some attr_name =>
            attr_value ← get_attr_value m (SGroup spec) container;
            for_each (fun item =>
              match item with
              | VContainer _ =>
                  __add_containers m sub_builder (SGroup spec) item source
                    container
              | _ => ret tt
              end) (group_items attr_value)
        | None => ret tt
        end;
    _ ← for_each (fun g => add_group m container source g sub_builder)
          (gs_groups spec);
    sb ← get_builder sub_builder;
    b ← get_builder builder;
    if negb (Builders.is_empty sb) || quantity_is_int (gs_quantity spec)
    then
      match b_groups b !! b_name sb with
      | Some _ => ret tt
      | None => Builders.set_group builder sub_builder
      end
    else ret tt
  else
    x ← get_container container;
    match gs_data_type_def spec with
    | Some _ =>
        match Mapper.get_attribute m (SGroup spec) with
        | Some attr_name =>
            let attr_value := getattr x attr_name in
            if is_none attr_value then ret tt
            else __add_containers m builder (SGroup spec) attr_value source
                   container
        | None => ret tt
        end
    | None =>
        match Mapper.get_attribute m (SGroup spec) with
        | Some attr_name =>
            let attr_value := getattr x attr_name in
            if is_none attr_value then ret tt
            else __add_containers m builder (SGroup spec) attr_value source
                   container
        | None => raise (TypeError (MsgBadArgument "attribute name"))
        end
    end.

(** [ObjectMapper.__add_groups(builder, groups, container, build_manager,
    source)] *)
Definition __add_groups (m : ObjectMapper) (builder : bid)
    (groups : list GroupSpec) (container : cid) (source : option string)
    : M unit :=
  for_each (fun spec => add_group m container source spec builder) groups.

(** The references of a compound dtype: the positions of the fields
    whose dtype is a RefSpec. *)
Fixpoint compound_refs (i : nat) (fields : list (string * (string + RefSpec)))
    : list (nat * RefSpec) :=
  match fields with
  | [] => []
  | (_, inr r) :: rest => (i, r) :: compound_refs (S i) rest
  | _ :: rest => compound_refs (S i) rest
  end.

(** One row of a compound dataset: [tmp = list(row)], then
    [tmp[j] = __get_ref_builder(subt.dtype, None, row[j], manager)] for
    every reference field, and [tuple(tmp)]. *)
Definition build_row (refs : list (nat * RefSpec)) (row : PyVal) : M PyVal :=
  items ← lift (py_iter row);
  tmp ← (fix go (refs : list (nat * RefSpec)) (tmp : list PyVal)
            : M (list PyVal) :=
           match refs with
           | [] => ret tmp
           | (j, r) :: rest =>
               match items !! j with
               | None => raise (LookupError MsgIndex)
               | Some x =>
                   rb ← __get_ref_builder r false x;
                   go rest (<[j := rb]> tmp)
               end
           end) refs items;
  ret (VTuple tmp).

(** [ObjectMapper.build(container, manager, parent, source, builder)] *)
Definition ObjectMapper_build (m : ObjectMapper) (container : cid)
    (parent : option bid) (source : option string) (builder : option bid)
    : M bid :=
  name ← get_builder_name container;
  builder ←
    match om_spec m with
    | SGroup g =>
        builder ← match builder with
                  | Some b => ret b
                  | None => Builders.GroupBuilder (Some name) parent source
                  end;
        _ ← __add_datasets m builder (gs_datasets g) container source;
        _ ← __add_groups m builder (gs_groups g) container source;
        _ ← __add_links m builder (gs_links g) container source;
        ret builder
    | SData d =>
        x ← get_container container;
        if negb (is_data (c_kind x)) then raise (ValueError MsgMustBeData)
        else
          match ds_dtype d with
          | DtRef r =>
              bldr_data ← __get_ref_builder r
                            (bool_decide (is_Some (ds_shape d)))
                            (VContainer container);
              c ← wrap_errors MsgCouldNotResolveDtype
                    (lift (convert_dtype py (ds_dtype d) bldr_data));
              Builders.DatasetBuilder (Some name) (fst c) parent source (snd c)
          | DtCompound fields =>
              rows ← lift (py_iter (c_data x));
              bldr_data ← for_collect (build_row (compound_refs O fields))
                            rows;
              c ← wrap_errors MsgCouldNotResolveDtype
                    (lift (convert_dtype py (ds_dtype d) (VList bldr_data)));
              Builders.DatasetBuilder (Some name) (fst c) parent source (snd c)
          | dt =>
              is_ref ← (if is_dt_none dt then lift (__is_reftype (c_data x))
                        else ret false);
              if is_ref then
                items ← lift (py_iter (c_data x));
                bldr_data ← for_collect (fun d =>
                                b ← build_value d None;
                                ret (VReferenceBuilder b)) items;
                Builders.DatasetBuilder (Some name) (VList bldr_data) parent
                  source (DtStr "object")
              else
                c ← wrap_errors MsgCouldNotResolveDtype
                      (lift (convert_dtype py dt (c_data x)));
                Builders.DatasetBuilder (Some name) (fst c) parent source
                  (snd c)
          end
    | _ => raise (AttributeError (MsgNoAttribute "dtype"))
    end;
  attributes ← match om_spec m with
               | SGroup g => ret (gs_attributes g)
               | SData d => ret (ds_attributes d)
               | _ => raise (AttributeError (MsgNoAttribute "attributes"))
               end;
  _ ← __add_attributes m builder attributes container source;
  ret builder.

(** [TypeMap.build(container, manager, source, builder)] *)
Definition TypeMap_build (container : cid) (source : option string)
    (builder : option bid) : M bid :=
  attr_map ← get_map container;
  builder ← ObjectMapper_build attr_map container None source builder;
  x ← get_container container;
  let ns_dt := get_container_ns_dt x in
  _ ← Builders.set_attribute builder "namespace" (opt_text (fst <$> ns_dt));
  _ ← Builders.set_attribute builder (tm_type_key tm)
        (opt_text (snd <$> ns_dt));
  ret builder.

End BuildPath.

(** ** BuildManager *)

Section Manager.
(** [TypeMap.build(container, manager, source=source, builder=builder)] *)
Variable tm_build : cid -> option string -> option bid -> M bid.

Definition with_container_source (source : option string) (x : Container)
    : Container :=
  mkContainer (c_cls x) (c_kind x) (c_name x) (c_parent x) source
    (c_modified x) (c_data x) (c_region x) (c_fields x).

(** [BuildManager.prebuilt(container, builder)] *)
Definition prebuilt (container : cid) (builder : bid) : M unit :=
  modify (set_mgr (insert container builder) (insert builder container)).

(** [BuildManager.build(container, source)] *)
Definition BuildManager_build (container : cid) (source : option string)
    : M bid :=
  result ← gets (fun s => mgr_builders s !! container);
  match result with
  | None =>
      x ← get_container container;
      _ ← match c_container_source x with
          | None =>
              modify (set_containers
                        (insert container (with_container_source source x)))
          | Some _ =>
              if bool_decide (c_container_source x = source) then ret tt
              else raise (ValueError MsgCantChangeSource)
          end;
      result ← tm_build container source None;
      _ ← prebuilt container result;
      ret result
  | Some result =>
      x ← get_container container;
      if c_modified x then
        b ← get_builder result;
        match b_kind b with
        | KGroup => tm_build container source (Some result)
        | _ => ret result
        end
      else ret result
  end.

End Manager.

(** The build of a session: [BuildManager.build] calls [TypeMap.build],
    whose mapper calls [BuildManager.build] for the containers it
    meets.  [fuel] bounds the depth of these calls; a build that runs
    out of it does not return. *)
Fixpoint build (py : PyLib) (tm : TypeMap) (fuel : nat)
    : cid -> option string -> M bid :=
  match fuel with
  | O => fun _ _ => raise RecursionError
  | S n => BuildManager_build (TypeMap_build py tm (build py tm n))
  end.

(** ** The builder side: [get_builder_dt], [get_builder_ns],
    [__get_parent_dt_builder] *)

Section BuilderSide.
Variable py : PyLib.
Variable tm : TypeMap.

(** Modelled from the spec: [builder.attributes.get(key)]; a GroupBuilder
    and a DatasetBuilder hold attributes, a LinkBuilder holds a name, a
    target and a parent only. *)
Definition builder_attribute (b : Builder) (key : string) : Res PyVal :=
  match b_kind b with
  | KLink => Err (AttributeError (MsgNoAttribute "attributes"))
  | _ => Ok (default VNone (b_attributes b !! key))
  end.

(** [TypeMap.get_builder_dt(builder)] *)
Definition get_builder_dt (b : Builder) : Res PyVal :=
  r ⇐ builder_attribute b (tm_type_key tm);
  match r with
  | VNone =>
      Err (ValueError (MsgBadArgument "builder does not have a data_type"))
  | VBytes x => t ⇐ decode_utf8 py x; Ok (VText t)
  | _ => Ok r
  end.

(** [TypeMap.get_builder_ns(builder)]; [bs] holds the builders alive, a
    LinkBuilder is replaced by its target. *)
Definition get_builder_ns (bs : gmap nat Builder) (b : Builder) : Res PyVal :=
  b ⇐ match b_kind b with
      | KLink =>
          match b_target b ≫= (fun t => bs !! t) with
          | Some t => Ok t
          | None => Err (LookupError MsgDangling)
          end
      | _ => Ok b
      end;
  r ⇐ builder_attribute b "namespace";
  match r with
  | VNone =>
      Err (ValueError (MsgBadArgument "builder does not have a namespace"))
  | _ => Ok r
  end.



End BuilderSide.

(** ** Proxy *)

Module ProxyM.

(** ["/".join(l)]; every item must be a string. *)
Fixpoint join_slash (l : list (option string)) : Res string :=
  match l with
  | [] => Ok ""
  | [Some x] => Ok x
  | Some x :: rest => r ⇐ join_slash rest; Ok (x ++ "/" ++ r)
  | None :: _ => Err (TypeError (MsgBadArgument "expected str"))
  end.

(** The loop of [BuildManager.__get_proxy_container]: from [tmp] up the
    parents, to a Container without parent or to a Proxy.  [None] when
    the walk has not ended after [fuel] steps. *)
Fixpoint container_stack (fuel : nat) (cs : gmap nat Container)
    (tmp : Parent) (stack : list (option string))
    : option (Res (list (option string))) :=
  match tmp with
  | PNone => Some (Ok stack)
  | PProxy p => Some (Ok (stack ++ [Some (p_location p)])%list)
  | PContainer c =>
      match fuel with
      | O => None
      | S n =>
          match cs !! c with
          | None => Some (Err (LookupError MsgDangling))
          | Some x => container_stack n cs (c_parent x) (stack ++ [c_name x])%list
          end
      end
  end.

(** [BuildManager.__get_proxy_container(container)]; the new Proxy has
    no candidates. *)
Definition __get_proxy_container (fuel : nat) (tm : TypeMap)
    (cs : gmap nat Container) (container : cid) : option (Res Proxy) :=
  match cs !! container with
  | None => Some (Err (LookupError MsgDangling))
  | Some x =>
      let ns_dt := tm_data_types tm !! c_cls x in
      match container_stack fuel cs (PContainer container) [] with
      | None => None
      | Some (Err e) => Some (Err e)
      | Some (Ok stack) =>
          Some (loc ⇐ join_slash (rev stack);
                Ok (mkProxy (c_container_source x) loc (fst <$> ns_dt)
                      (snd <$> ns_dt) []))
      end
  end.

(** [Proxy.__eq__(self, other)] *)
Definition eq (self other : Proxy) : bool :=
  bool_decide (p_data_type self = p_data_type other)
  && bool_decide (p_location self = p_location other)
  && bool_decide (p_namespace self = p_namespace other)
  && bool_decide (p_source self = p_source other).

(** [Proxy.matches(object)] for a Container *)
Definition matches (fuel : nat) (tm : TypeMap) (cs : gmap nat Container)
    (self : Proxy) (object : cid) : option (Res bool) :=
  match __get_proxy_container fuel tm cs object with
  | None => None
  | Some (Err e) => Some (Err e)
  | Some (Ok obj) => Some (Ok (eq self obj))
  end.

(** The candidate's own proxy is computed and equals [self], or differs
    from it. *)
Definition candidate_matches (fuel : nat) (tm : TypeMap)
    (cs : gmap nat Container) (self : Proxy) (c : cid) : Prop :=
  matches fuel tm cs self c = Some (Ok true).

Definition candidate_differs (fuel : nat) (tm : TypeMap)
    (cs : gmap nat Container) (self : Proxy) (c : cid) : Prop :=
  matches fuel tm cs self c = Some (Ok false).

(** The loop of [Proxy.resolve] over the candidates *)
Fixpoint resolve_loop (fuel : nat) (tm : TypeMap) (cs : gmap nat Container)
    (self : Proxy) (candidates : list cid) : option (Res (option cid)) :=
  match candidates with
  | [] => Some (Ok None)
  | candidate :: rest =>
      match matches fuel tm cs self candidate with
      | None => None
      | Some (Err e) => Some (Err e)
      | Some (Ok true) => Some (Ok (Some candidate))
      | Some (Ok false) => resolve_loop fuel tm cs self rest
      end
  end.

(** [Proxy.resolve()] *)
Definition resolve (fuel : nat) (tm : TypeMap) (cs : gmap nat Container)
    (self : Proxy) : option (Res (option cid)) :=
  resolve_loop fuel tm cs self (p_candidates self).

(** [Proxy.add_candidate(container)] *)
Definition add_candidate (container : cid) (self : Proxy) : Proxy :=
  mkProxy (p_source self) (p_location self) (p_namespace self)
    (p_data_type self) (p_candidates self ++ [container])%list.

End ProxyM.

(** ** What a parent builder holds after a child was attached *)



(** ** Invariants *)

(** A step of the Name Deriver keeps the keys of [all_names] pairwise
    distinct. *)
Definition keeps_nodup (f : NameDeriver.Fields -> Res NameDeriver.Fields)
    : Prop :=
  forall st st', f st = Ok st' ->
    NoDup (NameDeriver.keys (NameDeriver.all_names st)) ->
    NoDup (NameDeriver.keys (NameDeriver.all_names st')).

(** * Example sessions *)

(** A library for the closed examples: the string conversions are the
    identity on strings, and every other library call raises. *)
Definition pylib0 : PyLib :=
  {| text_type := fun v => match v with VText _ => Ok v | _ => Err LibraryError end;
     binary_type := fun v => match v with VBytes _ => Ok v | _ => Err LibraryError end;
     isoformat := fun _ => Err LibraryError;
     decode_utf8 := fun s => Ok s;
     encode_ascii := fun s => s;
     np_construct := fun _ _ => Err LibraryError;
     np_cast := fun _ _ => Err LibraryError;
     astype_U := fun _ _ => Err LibraryError;
     astype_S := fun _ _ => Err LibraryError;
     astype := fun _ _ _ => Err LibraryError |}.

(** 5.0 as a binary64 *)
Definition five_float : spec_float := S754_finite false 5629499534213120 (-50).

Module NameExample.

Definition an_attr (i : nat) (n : string) : AttributeSpec :=
  mkAttributeSpec i n (DtStr "text") None false VNone VNone.

Definition a_dataset (i : nat) (n : string) : DatasetSpec :=
  mkDatasetSpec i (Some n) (DtStr "int32") None None [] None None None
    (QInt 1) true.

(** An untyped group ["h"] and a typed group ["t"] with an attribute. *)
Definition h : GroupSpec :=
  mkGroupSpec 5 (Some "h") [] [] [] [] None None None (QInt 1).

Definition t : GroupSpec :=
  mkGroupSpec 6 (Some "t") [an_attr 7 "inner"] [] [] [] None (Some "Bar")
    None (QInt 1).

(** An untyped group ["g"] that holds the dataset ["d"] and the groups
    ["h"] and ["t"]. *)
Definition g : GroupSpec :=
  mkGroupSpec 2 (Some "g") [] [a_dataset 3 "d"] [h; t] [] None None None
    (QInt 1).

(** The spec of a type ["Foo"]: the group ["g"] and the dataset ["d0"]. *)
Definition foo : GroupSpec :=
  mkGroupSpec 1 None [] [a_dataset 4 "d0"] [g] [] (Some "Foo") None None
    (QInt 1).

End NameExample.

(** The world of the closed examples: one registered class, [0], of
    namespace ["core"] and data type ["Foo"], whose spec has the
    attributes [bar] (required) and [baz], and a link ["buddy"] to
    another Foo. *)
Module World.

Definition bar : AttributeSpec :=
  mkAttributeSpec 1 "bar" (DtStr "int64") None true VNone VNone.

Definition baz : AttributeSpec :=
  mkAttributeSpec 2 "baz" (DtStr "text") None false VNone VNone.

Definition buddy : LinkSpec := mkLinkSpec 3 (Some "buddy") "Foo" QZeroOrOne.

Definition foo : GroupSpec :=
  mkGroupSpec 0 None [bar; baz] [] [] [buddy] (Some "Foo") None None (QInt 1).

Definition tm : TypeMap :=
  mkTypeMap "neurodata_type" {[ 0%nat := ("core", "Foo") ]} ∅
    ObjectMapper_cls
    (fun ns dt => if String.eqb dt "Foo" then Some (SGroup foo) else None)
    (fun c => [c]).

(** A Foo named [name], with the given parent, source and modified flag,
    and the attributes [bar = 7], [baz = "hi"]. *)
Definition a_foo (name : string) (parent : Parent) (source : option string)
    (modified : bool) : Container :=
  mkContainer 0 KContainer (Some name) parent source modified VNone VNone
    {[ "bar" := VInt 7; "baz" := VText "hi" ]}.

(** A session that holds one Foo, container [0], unmodified and not
    built yet; and the same Foo read from ["a.nwb"]. *)
Definition s0 : State :=
  mkState {[ 0%nat := a_foo "f" PNone None false ]} ∅ ∅ ∅ ∅ [].

Definition s_read : State :=
  mkState {[ 0%nat := a_foo "f" PNone (Some "a.nwb") false ]} ∅ ∅ ∅ ∅ [].

(** The mapper of Foo, as [ObjectMapper.__init__] makes it. *)
Definition mapper : ObjectMapper :=
  match Mapper.init ∅ (SGroup foo) with
  | Ok m => m
  | Err _ => mkObjectMapper (SGroup foo) ∅ ∅ ∅ ∅ ∅
  end.

(** A session in which a Foo without the attribute [bar] is being
    built: its group builder, [0], is still empty. *)
Definition s_no_bar : State :=
  mkState
    {[ 0%nat := mkContainer 0 KContainer (Some "f") PNone None true VNone
                  VNone {[ "baz" := VText "hi" ]} ]}
    {[ 0%nat := Builders.empty KGroup "f" None None ]} ∅ ∅ ∅ [].

(** The sub-spec for the Foos held by a parent, without a link. *)
Definition kids : GroupSpec :=
  mkGroupSpec 4 None [] [] [] [] None (Some "Foo") None QZeroOrMany.

(** A parent, container [0], read from ["a.nwb"], whose group builder,
    [0], is empty; its child, container [1], read from the same file and
    not modified. *)
Definition s_family : State :=
  mkState
    {[ 0%nat := a_foo "f" PNone (Some "a.nwb") false;
       1%nat := a_foo "kid" (PContainer 0) (Some "a.nwb") false ]}
    {[ 0%nat := Builders.empty KGroup "f" None None ]} ∅ ∅ ∅ [].

(** A new parent, container [0], and two new Foos: container [1], whose
    parent it is, and container [2], whose parent is container [1]. *)
Definition s_new : State :=
  mkState
    {[ 0%nat := a_foo "f" PNone None true;
       1%nat := a_foo "kid" (PContainer 0) None true;
       2%nat := a_foo "grandkid" (PContainer 1) None true ]}
    {[ 0%nat := Builders.empty KGroup "f" None None ]} ∅ ∅ ∅ [].

(** A new Foo, container [0], whose attribute [buddy] is the new Foo
    [1], its child. *)
Definition s_buddy : State :=
  mkState
    {[ 0%nat := mkContainer 0 KContainer (Some "f") PNone None true VNone
                  VNone {[ "bar" := VInt 7; "baz" := VText "hi";
                           "buddy" := VContainer 1 ]};
       1%nat := a_foo "kid" (PContainer 0) None true ]}
    ∅ ∅ ∅ ∅ [].

(** [TypeMap.build] of this world, with nested builds of depth 2. *)
Definition tm_build : cid -> option string -> option bid -> M bid :=
  TypeMap_build pylib0 tm (build pylib0 tm 2).

End World.

(** A world with a Data class, [1], of data type ["Ref"]: its spec is a
    dataset whose dtype is an object reference to a Foo, without shape. *)
Module RefWorld.

Definition ref_data : DatasetSpec :=
  mkDatasetSpec 0 None (DtRef (mkRefSpec "Foo" "object")) None None []
    (Some "Ref") None None (QInt 1) true.

Definition tm : TypeMap :=
  mkTypeMap "neurodata_type" {[ 1%nat := ("core", "Ref") ]} ∅
    ObjectMapper_cls
    (fun ns dt => if String.eqb dt "Ref" then Some (SData ref_data) else None)
    (fun c => [c]).

(** A new Data of this class, container [0], not built yet; and the same
    after [BuildManager.build] has written the source ["a.nwb"] to it. *)
Definition a_ref (source : option string) : Container :=
  mkContainer 1 KData (Some "r") PNone source true (VContainer 5) VNone ∅.

Definition s0 : State := mkState {[ 0%nat := a_ref None ]} ∅ ∅ ∅ ∅ [].

Definition s_stamped : State :=
  mkState {[ 0%nat := a_ref (Some "a.nwb") ]} ∅ ∅ ∅ ∅ [].

Definition mapper : ObjectMapper :=
  match Mapper.init ∅ (SData ref_data) with
  | Ok m => m
  | Err _ => mkObjectMapper (SData ref_data) ∅ ∅ ∅ ∅ ∅
  end.

End RefWorld.

(** * Properties *)

(** ** Dtype Coercer *)

Section CoercerFacts.
Variable py : PyLib.

Lemma dtypes_not_numeric s f : __dtypes s = Some f -> String.eqb s "numeric" = false.
Proof.
  intros H. destruct (String.eqb s "numeric") eqn:E; [|reflexivity].
  apply String.eqb_eq in E. subst s. vm_compute in H. discriminate.
Qed.

(** [__resolve_dtype] returns the specified type whenever the given type
    is not wider, whatever the two families are. *)
Lemma resolve_dtype_not_wider g s :
  (Numpy.itemsize g <= Numpy.itemsize s)%Z -> __resolve_dtype g s = Ok s.
Proof.
  intros H. unfold __resolve_dtype.
  destruct (Z.leb_spec (Numpy.itemsize g) (Numpy.itemsize s)); [reflexivity|lia].
Qed.

(** A wider given type of another family is refused: float64 against
    int32. *)
Example resolve_dtype_float64_int32 :
  __resolve_dtype Numpy.float64 Numpy.int32
  = Err (ValueError (MsgDtypeMismatch "int32" "float64" true)).
Proof. reflexivity. Qed.


(** C10. For every spec whose dtype is a recognised primitive of the
    table, convert_dtype applied to an empty list or an empty tuple fails:
    the loop assigns [tmp_dtype] for no element, and reading it raises
    UnboundLocalError. *)
Theorem convert_dtype_empty_sequence (s : string) (f : DtypeFunc) :
  __dtypes s = Some f ->
  convert_dtype py (DtStr s) (VList [])
  = Err (UnboundLocalError (MsgLocalUnbound "tmp_dtype"))
  /\ convert_dtype py (DtStr s) (VTuple [])
     = Err (UnboundLocalError (MsgLocalUnbound "tmp_dtype")).
Proof.
  intros H. pose proof (dtypes_not_numeric _ _ H) as Hn.
  split; simpl; rewrite Hn, H; reflexivity.
Qed.

End CoercerFacts.

Lemma convert_dtype_empty_sequence_int32 :
  __dtypes "int32" = Some (FNp Numpy.int32)
  /\ convert_dtype pylib0 (DtStr "int32") (VList [])
     = Err (UnboundLocalError (MsgLocalUnbound "tmp_dtype"))
  /\ convert_dtype pylib0 (DtStr "int32") (VTuple [])
     = Err (UnboundLocalError (MsgLocalUnbound "tmp_dtype")).
Proof.
  split; [reflexivity|].
  apply (convert_dtype_empty_sequence pylib0 "int32" (FNp Numpy.int32)).
  reflexivity.
Defined.

(** A list with an element is converted, and reports the dtype of its
    last element; a Python int, 64 bits wide, keeps its width against
    int32. *)
Example convert_dtype_list_int32 :
  convert_dtype pylib0 (DtStr "int32") (VList [VInt 1; VInt 2])
  = Ok (VList [VNp Numpy.int64 (Numpy.PInt 1); VNp Numpy.int64 (Numpy.PInt 2)],
        DtType Numpy.int64).
Proof. reflexivity. Qed.

(** ** Spec<->Field Index *)

(** C9. [get_carg_spec(n)] returns what [get_attr_spec(n)] returns: both
    read the attr->spec table.  So [map_const_arg(n, spec)], which only
    writes the carg tables, leaves [get_carg_spec(n)] as it was, although
    the carg->spec table now holds [spec] under [n]; a spec that the
    attr->spec table does not hold under [n] is not returned. *)
Theorem get_carg_spec_reads_attr2spec (m : ObjectMapper) (n : string)
    (spec : Spec) :
  Mapper.get_carg_spec m n = Mapper.get_attr_spec m n
  /\ Mapper.get_carg_spec (Mapper.map_const_arg n spec m) n
     = Mapper.get_attr_spec m n
  /\ om_carg2spec (Mapper.map_const_arg n spec m) !! n = Some spec
  /\ (om_attr2spec m !! n = None ->
      Mapper.get_carg_spec (Mapper.map_const_arg n spec m) n = None).
Proof.
  repeat split.
  - simpl. apply lookup_insert_eq.
  - intros H. exact H.
Qed.

(** ** Name Deriver *)

Example snake_case_TimeSeries :
  NameDeriver.snake_case "TimeSeries" = "time_series".
Proof. vm_compute. reflexivity. Qed.

Example snake_case_NWBFile : NameDeriver.snake_case "NWBFile" = "nwb_file".
Proof. vm_compute. reflexivity. Qed.

(** Nothing is collected from inside a sub-spec that carries a data
    type: [__get_fields] files the sub-spec under one name and returns. *)
Lemma get_fields_typed_stops (spec : Spec) (st st' : NameDeriver.Fields) :
  is_storage_spec spec = true ->
  untyped (spec_data_type_def spec) (spec_data_type_inc spec) = false ->
  NameDeriver.__get_fields spec st = Ok st' ->
  exists name,
    NameDeriver.all_names st'
    = NameDeriver.odict_set name spec (NameDeriver.all_names st).
Proof.
  intros Hs Hu H.
  assert (Hb : forall children,
             NameDeriver.get_fields_body children spec st = Ok st' ->
             exists name,
               NameDeriver.all_names st'
               = NameDeriver.odict_set name spec (NameDeriver.all_names st)).
  { intros children Hc. unfold NameDeriver.get_fields_body in Hc.
    destruct (match spec_name spec with
              | Some n => Ok n
              | None => NameDeriver.convert_dt_name spec
              end) as [n|e]; simpl in Hc; [|discriminate].
    rewrite Hs, Hu in Hc. simpl in Hc. injection Hc as <-. simpl. eauto. }
  destruct spec as [a|d|g|l]; simpl in Hs; try discriminate.
  - apply (Hb _ H).
  - destruct g. apply (Hb _ H).
Qed.

(** C7. [get_attr_names] on the spec [NameExample.foo]: at the top
    level the group ["g"] is visited before the dataset ["d0"]; inside
    the untyped group ["g"], [__get_fields] visits the dataset ["d"]
    before the groups ["h"] and ["t"], so a descended node has its
    datasets visited before its groups; the attribute ["inner"] of the
    typed group ["t"] is not collected. *)
Theorem get_attr_names_order :
  (names ⇐ NameDeriver.get_attr_names (SGroup NameExample.foo);
   Ok (NameDeriver.keys names))
  = Ok ["g"; "d"; "h"; "t"; "d0"].
Proof. vm_compute. reflexivity. Qed.

(** ** Proxy *)

Section ProxyFacts.
Variable fuel : nat.
Variable tm : TypeMap.
Variable cs : gmap nat Container.
Variable self : Proxy.

Local Abbreviation candidate_matches :=
  (ProxyM.candidate_matches fuel tm cs self).
Local Abbreviation candidate_differs :=
  (ProxyM.candidate_differs fuel tm cs self).

Lemma resolve_loop_first (candidates : list cid) :
  Forall (fun c => candidate_matches c \/ candidate_differs c) candidates ->
  match ProxyM.resolve_loop fuel tm cs self candidates with
  | Some (Ok (Some c)) =>
      exists l1 l2, candidates = (l1 ++ c :: l2)%list
                    /\ Forall candidate_differs l1 /\ candidate_matches c
  | Some (Ok None) => Forall candidate_differs candidates
  | _ => False
  end.
Proof.
  induction 1 as [|c rest Hc _ IH]; simpl.
  - constructor.
  - destruct Hc as [Hc|Hc]; red in Hc; rewrite Hc.
    + exists [], rest. repeat split; [constructor|exact Hc].
    + destruct (ProxyM.resolve_loop fuel tm cs self rest) as [[[c'|]|]|];
        try contradiction.
      * destruct IH as (l1 & l2 & -> & Hl1 & Hm).
        exists (c :: l1), l2. repeat split; [constructor; assumption|exact Hm].
      * constructor; assumption.
Qed.

(** C5, amended.  When the proxy of every candidate can be computed,
    [resolve()] returns the first candidate, in the order they were
    added, whose (source, location, namespace, data_type) equals the
    Proxy's; it returns none exactly when no candidate matches.  So a
    unique matching candidate is returned, and of several matching
    candidates the first is. *)
Theorem resolve_first_match :
  Forall (fun c => candidate_matches c \/ candidate_differs c)
    (p_candidates self) ->
  exists r,
    ProxyM.resolve fuel tm cs self = Some (Ok r)
    /\ match r with
       | Some c =>
           exists l1 l2, p_candidates self = (l1 ++ c :: l2)%list
                         /\ Forall candidate_differs l1
                         /\ candidate_matches c
       | None => Forall candidate_differs (p_candidates self)
       end.
Proof.
  intros H. apply resolve_loop_first in H. unfold ProxyM.resolve.
  destruct (ProxyM.resolve_loop fuel tm cs self (p_candidates self))
    as [[r|]|]; try contradiction.
  exists r. split; [reflexivity|]. destruct r; exact H.
Qed.

(** More fuel does not change a walk up the parents that has ended. *)
Lemma container_stack_more_fuel (n : nat) tmp stack r :
  ProxyM.container_stack n cs tmp stack = Some r ->
  ProxyM.container_stack (S n) cs tmp stack = Some r.
Proof.
  revert tmp stack. induction n as [|n IH]; intros tmp stack H.
  - destruct tmp; simpl in *; congruence.
  - destruct tmp as [|c|p]; try exact H.
    simpl in H. change (ProxyM.container_stack (S (S n)) cs (PContainer c) stack)
      with (match cs !! c with
            | None => Some (Err (LookupError MsgDangling))
            | Some x => ProxyM.container_stack (S n) cs (c_parent x)
                          (stack ++ [c_name x])%list
            end).
    destruct (cs !! c); [|exact H]. apply IH. exact H.
Qed.

End ProxyFacts.

(** C5, the claim as stated fails: two candidates that both match; the
    first is returned, not none. *)
Lemma resolve_two_matches :
  let cs : gmap nat Container :=
    {[ 1%nat := World.a_foo "x" PNone (Some "f.nwb") false;
       2%nat := World.a_foo "x" PNone (Some "f.nwb") false ]} in
  let self := mkProxy (Some "f.nwb") "x" (Some "core") (Some "Foo")
                [1%nat; 2%nat] in
  ProxyM.matches 3 World.tm cs self 1%nat = Some (Ok true)
  /\ ProxyM.matches 3 World.tm cs self 2%nat = Some (Ok true)
  /\ ProxyM.resolve 3 World.tm cs self = Some (Ok (Some 1%nat)).
Proof. vm_compute. repeat split. Qed.

Lemma resolve_first_match_example :
  let cs : gmap nat Container :=
    {[ 1%nat := World.a_foo "y" PNone (Some "f.nwb") false;
       2%nat := World.a_foo "x" PNone (Some "f.nwb") false ]} in
  let self := mkProxy (Some "f.nwb") "x" (Some "core") (Some "Foo")
                [1%nat; 2%nat] in
  exists r,
    ProxyM.resolve 3 World.tm cs self = Some (Ok r)
    /\ match r with
       | Some c =>
           exists l1 l2, p_candidates self = (l1 ++ c :: l2)%list
                         /\ Forall (ProxyM.candidate_differs 3 World.tm cs self) l1
                         /\ ProxyM.candidate_matches 3 World.tm cs self c
       | None => Forall (ProxyM.candidate_differs 3 World.tm cs self)
                   (p_candidates self)
       end.
Proof.
  intros cs self. apply (resolve_first_match 3 World.tm cs self).
  constructor; [right; vm_compute; reflexivity|].
  constructor; [left; vm_compute; reflexivity|].
  constructor.
Defined.

(** ** BuildManager *)

Section ManagerFacts.
Variable tm_build : cid -> option string -> option bid -> M bid.

(** A container that is cached and not modified gets its cached builder,
    whatever the source; nothing changes. *)
Lemma build_cached_unmodified (s : State) (c : cid) (x : Container)
    (b : bid) (source : option string) :
  mgr_builders s !! c = Some b ->
  containers s !! c = Some x ->
  c_modified x = false ->
  BuildManager_build tm_build c source s = (Ok b, s).
Proof.
  intros Hb Hx Hm. unfold BuildManager_build. unfold_monad.
  rewrite Hb, Hx, Hm. reflexivity.
Qed.

(** A successful build leaves the returned builder cached when the
    container was not cached before. *)
Lemma build_uncached_caches (s s' : State) (c : cid) (r : bid)
    (source : option string) :
  mgr_builders s !! c = None ->
  BuildManager_build tm_build c source s = (Ok r, s') ->
  mgr_builders s' !! c = Some r
  /\ exists s1, s' = set_mgr (insert c r) (insert r c) s1.
Proof.
  intros Hb H. unfold BuildManager_build, prebuilt in H. unfold_monad.
  rewrite Hb in H.
  destruct (containers s !! c) as [x|]; [|discriminate].
  destruct (c_container_source x) as [cs|].
  - destruct (bool_decide (Some cs = source)); [|discriminate].
    destruct (tm_build c source None s) as [[r'|e] s1]; [|discriminate].
    injection H as <- <-. split; [apply lookup_insert_eq|eauto].
  - destruct (tm_build c source None _) as [[r'|e] s1]; [|discriminate].
    injection H as <- <-. split; [apply lookup_insert_eq|eauto].
Qed.

(** C3, amended.  The source is compared only on a build of a container
    that has no cached builder: if its container_source is set and
    differs from the source passed, the build fails with "Can't change
    container_source once set" and changes nothing.  Once the container
    has a cached builder the source is not compared: an unmodified
    container gets its cached builder back, whatever source is passed. *)
Theorem build_source_write_once (s : State) (c : cid) (x : Container) :
  containers s !! c = Some x ->
  (forall cs source,
      mgr_builders s !! c = None ->
      c_container_source x = Some cs ->
      source <> Some cs ->
      BuildManager_build tm_build c source s
      = (Err (ValueError MsgCantChangeSource), s))
  /\ (forall b source,
        mgr_builders s !! c = Some b ->
        c_modified x = false ->
        BuildManager_build tm_build c source s = (Ok b, s)).
Proof.
  intros Hx. split.
  - intros cs source Hb Hcs Hne. unfold BuildManager_build. unfold_monad.
    rewrite Hb, Hx, Hcs. rewrite bool_decide_eq_false_2 by congruence.
    reflexivity.
  - intros b source Hb Hm. eapply build_cached_unmodified; eassumption.
Qed.

(** C4.  While the container stays unmodified, repeated builds return
    the identical builder: if a build of the unmodified container [c]
    returns the builder [r] and leaves [c] unmodified, every later
    build of [c], with whatever sources, returns [r] again and changes
    nothing. *)
Theorem build_identity (s s' : State) (c : cid) (x x' : Container)
    (source : option string) (r : bid) :
  containers s !! c = Some x ->
  c_modified x = false ->
  BuildManager_build tm_build c source s = (Ok r, s') ->
  containers s' !! c = Some x' ->
  c_modified x' = false ->
  forall sources : list (option string),
    for_collect (BuildManager_build tm_build c) sources s'
    = (Ok (map (fun _ => r) sources), s').
Proof.
  intros Hx Hm H Hx' Hm' sources.
  assert (Hc : mgr_builders s' !! c = Some r).
  { destruct (mgr_builders s !! c) as [b|] eqn:Hb.
    - rewrite (build_cached_unmodified s c x b source Hb Hx Hm) in H.
      injection H as <- <-. exact Hb.
    - apply (build_uncached_caches s s' c r source Hb H). }
  induction sources as [|src rest IH]; simpl.
  - reflexivity.
  - unfold m_bind at 1.
    rewrite (build_cached_unmodified s' c x' r src Hc Hx' Hm').
    unfold m_bind. rewrite IH. reflexivity.
Qed.

End ManagerFacts.

(** A whole build: the Foo [0] and, through its link spec, its buddy
    [1].  Both get a group builder with their attributes, the namespace
    and the data type; the builder of [0] holds a link named ["buddy"]
    to the builder of [1]; both are cached. *)
Example build_with_buddy :
  let r := build pylib0 World.tm 4 0%nat (Some "a.nwb") World.s_buddy in
  let view (b : Builder) :=
    (b_kind b, b_name b, b_target b, map_to_list (b_links b),
     map_to_list (b_attributes b)) in
  let attributes :=
    [("neurodata_type", VText "Foo"); ("namespace", VText "core");
     ("baz", VText "hi"); ("bar", VNp Numpy.int64 (Numpy.PInt 7))] in
  fst r = Ok 0%nat
  /\ view <$> builders (snd r) !! 0%nat
     = Some (KGroup, "f", None, [("buddy", 2%nat)], attributes)
  /\ view <$> builders (snd r) !! 1%nat
     = Some (KGroup, "kid", None, [], attributes)
  /\ view <$> builders (snd r) !! 2%nat
     = Some (KLink, "buddy", Some 1%nat, [], [])
  /\ map_to_list (mgr_builders (snd r)) = [(1%nat, 1%nat); (0%nat, 0%nat)]
  /\ warnings (snd r) = [].
Proof. vm_compute. repeat split. Qed.

(** With too little fuel for the nested build, the build does not
    return. *)
Example build_out_of_fuel :
  fst (build pylib0 World.tm 1 0%nat (Some "a.nwb") World.s_buddy)
  = Err RecursionError.
Proof. vm_compute. reflexivity. Qed.

(** C3, the claim as stated fails: the first build of container [0],
    with source ["a.nwb"], succeeds and sets its container_source; a
    later build with source ["b.nwb"] does not fail, it returns the
    cached builder. *)
Lemma build_second_source_returns :
  let first := BuildManager_build World.tm_build 0%nat (Some "a.nwb")
                 World.s0 in
  fst first = Ok 0%nat
  /\ c_container_source <$> (containers (snd first) !! 0%nat)
     = Some (Some "a.nwb")
  /\ fst (BuildManager_build World.tm_build 0%nat (Some "b.nwb") (snd first))
     = Ok 0%nat.
Proof. vm_compute. repeat split. Qed.

Lemma build_source_write_once_example :
  let first := BuildManager_build World.tm_build 0%nat (Some "a.nwb")
                 World.s0 in
  BuildManager_build World.tm_build 0%nat (Some "b.nwb") World.s_read
  = (Err (ValueError MsgCantChangeSource), World.s_read)
  /\ BuildManager_build World.tm_build 0%nat (Some "b.nwb") (snd first)
     = (Ok 0%nat, snd first).
Proof.
  intros first. split.
  - apply (proj1 (build_source_write_once World.tm_build World.s_read 0%nat
                    (World.a_foo "f" PNone (Some "a.nwb") false) eq_refl)
             "a.nwb" (Some "b.nwb")); [reflexivity|reflexivity|discriminate].
  - refine (proj2 (build_source_write_once World.tm_build (snd first) 0%nat
                     (World.a_foo "f" PNone (Some "a.nwb") false) _)
              0%nat (Some "b.nwb") _ _).
    + vm_compute. reflexivity.
    + vm_compute. reflexivity.
    + reflexivity.
Defined.

Lemma build_identity_example :
  let first := BuildManager_build World.tm_build 0%nat (Some "a.nwb")
                 World.s0 in
  for_collect (BuildManager_build World.tm_build 0%nat)
    [Some "a.nwb"; None; Some "b.nwb"] (snd first)
  = (Ok [0%nat; 0%nat; 0%nat], snd first).
Proof.
  intros first.
  apply (build_identity World.tm_build World.s0 (snd first) 0%nat
           (World.a_foo "f" PNone None false)
           (World.a_foo "f" PNone (Some "a.nwb") false)
           (Some "a.nwb") 0%nat).
  - reflexivity.
  - reflexivity.
  - vm_compute. reflexivity.
  - vm_compute. reflexivity.
  - reflexivity.
Defined.

(** ** The builder layer *)

Lemma set_attribute_inv (b : bid) (k : string) (v : PyVal) (s s' : State) r :
  Builders.set_attribute b k v s = (Ok r, s') ->
  exists bl, builders s !! b = Some bl
             /\ s' = set_builders (insert b (Builders.with_attribute k v bl)) s.
Proof.
  unfold Builders.set_attribute, Builders.update. unfold_monad. intros H.
  destruct (builders s !! b) as [bl|]; [|discriminate].
  injection H as _ <-. eauto.
Qed.

(** ** TypeMap.build *)

Section TypeMapFacts.
Variable py : PyLib.
Variable tm : TypeMap.
Variable mgr_build : cid -> option string -> M bid.

(** C8.  The builder that [TypeMap.build] returns for a container of a
    registered class carries the attribute ["namespace"], set to the
    namespace of the class, and the attribute named by the type key,
    set to its data type.  (The type key of the spec layer is not
    ["namespace"].) *)
Theorem TypeMap_build_attributes (c : cid) (source : option string)
    (builder : option bid) (s s' : State) (b : bid) (x : Container)
    (ns dt : string) :
  TypeMap_build py tm mgr_build c source builder s = (Ok b, s') ->
  containers s' !! c = Some x ->
  tm_data_types tm !! c_cls x = Some (ns, dt) ->
  tm_type_key tm <> "namespace" ->
  exists bl,
    builders s' !! b = Some bl
    /\ b_attributes bl !! "namespace" = Some (VText ns)
    /\ b_attributes bl !! tm_type_key tm = Some (VText dt).
Proof.
  intros H Hx Hreg Hkey. unfold TypeMap_build in H. unfold m_bind in H.
  destruct (get_map tm c s) as [[attr_map|e] s0]; [|discriminate].
  destruct (ObjectMapper_build py tm mgr_build attr_map c None source builder s0)
    as [[b0|e] s1]; [|discriminate].
  unfold get_container in H at 1.
  destruct (containers s1 !! c) as [x1|] eqn:Hx1; [|discriminate].
  destruct (Builders.set_attribute b0 "namespace" _ s1) as [[u|e] s2] eqn:H1;
    [|discriminate].
  destruct (Builders.set_attribute b0 (tm_type_key tm) _ s2) as [[u'|e] s3] eqn:H2;
    [|discriminate].
  unfold ret in H. injection H as <- <-.
  apply set_attribute_inv in H1 as (bl1 & Hb1 & ->).
  apply set_attribute_inv in H2 as (bl2 & Hb2 & ->).
  simpl in Hx. rewrite Hx1 in Hx. injection Hx as ->.
  unfold get_container_ns_dt in *. rewrite Hreg in *. simpl in *.
  rewrite lookup_insert_eq in Hb2. injection Hb2 as <-.
  eexists. split; [apply lookup_insert_eq|]. simpl. split.
  - rewrite lookup_insert_ne by exact Hkey. apply lookup_insert_eq.
  - apply lookup_insert_eq.
Qed.

End TypeMapFacts.

(** The Foo of the example world, built: its builder carries the
    namespace and the data type of its class. *)
Lemma TypeMap_build_attributes_example :
  let first := World.tm_build 0%nat (Some "a.nwb") None World.s0 in
  exists bl,
    builders (snd first) !! 0%nat = Some bl
    /\ b_attributes bl !! "namespace" = Some (VText "core")
    /\ b_attributes bl !! "neurodata_type" = Some (VText "Foo").
Proof.
  intros first.
  apply (TypeMap_build_attributes pylib0 World.tm (build pylib0 World.tm 2)
           0%nat (Some "a.nwb") None World.s0 (snd first) 0%nat
           (World.a_foo "f" PNone None false) "core" "Foo").
  - vm_compute. reflexivity.
  - vm_compute. reflexivity.
  - reflexivity.
  - discriminate.
Defined.

(** ** Adding attributes *)


Section AttributeFacts.
Variable py : PyLib.
Variable mgr_build : cid -> option string -> M bid.
Variable m : ObjectMapper.
Variable builder : bid.
Variable container : cid.
Variable source : option string.

(** The value of an attribute is absent when the spec gives no literal
    value, the container gives none, the spec has no default, and the
    dtype is not a reference. *)
Lemma attribute_value_absent (spec : AttributeSpec) (s : State) :
  attr_value spec = VNone ->
  get_attr_value py m (SAttr spec) container s = (Ok VNone, s) ->
  attr_default_value spec = VNone ->
  (forall r, attr_dtype spec <> DtRef r) ->
  attribute_value py mgr_build m spec container source s = (Ok VNone, s).
Proof.
  intros Hv Hg Hd Hr. unfold attribute_value. unfold_monad.
  rewrite Hv. simpl. rewrite Hg. simpl. rewrite Hd. simpl.
  destruct (attr_dtype spec); try reflexivity. exfalso. eapply Hr. reflexivity.
Qed.

(** With a reference dtype the same absent value is an error, whether
    the spec is required or not. *)
Lemma attribute_value_absent_ref (spec : AttributeSpec) (s : State) r :
  attr_value spec = VNone ->
  get_attr_value py m (SAttr spec) container s = (Ok VNone, s) ->
  attr_default_value spec = VNone ->
  attr_dtype spec = DtRef r ->
  attribute_value py mgr_build m spec container source s
  = (Err (ValueError (MsgRefNotFound (target_type r))), s).
Proof.
  intros Hv Hg Hd Hr. unfold attribute_value. unfold_monad.
  rewrite Hv. simpl. rewrite Hg. simpl. rewrite Hd, Hr. reflexivity.
Qed.


End AttributeFacts.


(** The whole loop on that Foo: the builder ends with [baz] and without
    [bar], one warning was emitted, and the loop returned. *)
Example add_attributes_no_bar :
  let r := __add_attributes pylib0 (build pylib0 World.tm 2)
             World.mapper 0%nat [World.bar; World.baz] 0%nat None
             World.s_no_bar in
  fst r = Ok tt
  /\ (b_attributes <$> builders (snd r) !! 0%nat)
     = Some {[ "baz" := VText "hi" ]}
  /\ warnings (snd r)
     = [MissingRequiredWarning "attribute" (Some "bar") "f" (Some "Foo")].
Proof. vm_compute. repeat split. Qed.

(** ** Adding containers: embed or link *)

Lemma fresh_builder_none (s : State) :
  builders s !! fresh (dom (builders s)) = None.
Proof. apply not_elem_of_dom. apply is_fresh. Qed.





Section ContainerFacts.
Variable py : PyLib.
Variable tm : TypeMap.
Variable mgr_build : cid -> option string -> M bid.
Variable m : ObjectMapper.
Variable builder : bid.
Variable spec : Spec.
Variable source : option string.
Variable P : cid.



End ContainerFacts.



(** * Further properties *)

(** ** Dtype Coercer *)

(** X1.  When [__resolve_dtype] returns a type, it is the wider of the
    given and the specified type: the specified one unless the given one
    is wider, and then the given one, of the same family. *)
Theorem resolve_dtype_widest (g s r : Numpy.dtype) :
  __resolve_dtype g s = Ok r ->
  Numpy.itemsize r = Z.max (Numpy.itemsize g) (Numpy.itemsize s)
  /\ (r = s
      \/ (r = g /\ prefix3 (Numpy.name g) = prefix3 (Numpy.name s))).
Proof.
  unfold __resolve_dtype. intros H.
  destruct (Z.leb_spec (Numpy.itemsize g) (Numpy.itemsize s)) as [Hle|Hlt].
  - injection H as <-. split; [lia|left; reflexivity].
  - destruct (String.eqb _ _) eqn:E; simpl in H; [|discriminate].
    injection H as <-. apply String.eqb_eq in E.
    split; [lia|right; split; [reflexivity|exact E]].
Qed.

Lemma resolve_dtype_widest_example :
  Numpy.itemsize Numpy.int64
  = Z.max (Numpy.itemsize Numpy.int64) (Numpy.itemsize Numpy.int32)
  /\ (Numpy.int64 = Numpy.int32
      \/ (Numpy.int64 = Numpy.int64
          /\ prefix3 (Numpy.name Numpy.int64)
             = prefix3 (Numpy.name Numpy.int32))).
Proof.
  apply (resolve_dtype_widest Numpy.int64 Numpy.int32 Numpy.int64).
  reflexivity.
Defined.

Section CoercerMore.
Variable py : PyLib.

(** X3.  A dtype string that is neither ["numeric"] nor a key of the
    table is refused for every value except [None]: [None] is returned
    as it is, with the unknown dtype reported, and raises nothing. *)
Theorem convert_dtype_unrecognized (s : string) :
  __dtypes s = None ->
  s <> "numeric" ->
  convert_dtype py (DtStr s) VNone = Ok (VNone, DtStr s)
  /\ forall value,
       value <> VNone ->
       (forall d, value <> VDataIO d) ->
       convert_dtype py (DtStr s) value
       = Err (ValueError (MsgUnrecognizedDtype s)).
Proof.
  intros Ht Hn. split; [reflexivity|]. intros value Hv Hd.
  apply String.eqb_neq in Hn.
  destruct value; try congruence; simpl; rewrite Hn, Ht; reflexivity.
Qed.

(** The loop of [convert_dtype] over the elements of a list or tuple:
    the elements are converted one by one, in order, and [tmp_dtype] is
    the dtype reported for the last one. *)
Lemma convert_dtype_loop (dt : Dtype) (l : list PyVal) :
  forall (acc : list PyVal) (tmp : option Dtype) ret td,
    (fix loop (l : list PyVal) (ret : list PyVal) (tmp_dtype : option Dtype)
       : Res (list PyVal * option Dtype) :=
       match l with
       | [] => Ok (ret, tmp_dtype)
       | elem :: rest =>
           r ⇐ convert_dtype py dt elem;
           loop rest (ret ++ [fst r])%list (Some (snd r))
       end) l acc tmp = Ok (ret, td) ->
    exists l',
      ret = (acc ++ l')%list
      /\ Forall2 (fun x y => exists t, convert_dtype py dt x = Ok (y, t)) l l'
      /\ match last l with
         | Some x => exists y t, convert_dtype py dt x = Ok (y, t)
                                 /\ td = Some t
         | None => td = tmp
         end.
Proof.
  induction l as [|x rest IH]; intros acc tmp ret td H.
  - injection H as <- <-. exists []. rewrite app_nil_r.
    repeat split. constructor.
  - simpl in H. destruct (convert_dtype py dt x) as [[y t]|e] eqn:Hx;
      simpl in H; [|discriminate].
    apply IH in H as (l' & -> & Hall & Hlast).
    exists (y :: l'). split; [rewrite <- app_assoc; reflexivity|].
    split; [constructor; eauto|].
    destruct rest as [|x' rest'].
    + simpl in *. exists y, t. split; [exact Hx|exact Hlast].
    + change (last (x :: x' :: rest')) with (last (x' :: rest')).
      destruct (last (x' :: rest')) as [z|] eqn:El; [exact Hlast|].
      apply last_None in El. discriminate.
Qed.

(** X2.  Against a dtype of the table, a list is converted element by
    element into a list and a tuple into a tuple, of the same length and
    in the same order, and the dtype reported is the one of the last
    element. *)
Theorem convert_dtype_sequence (s : string) (f : DtypeFunc)
    (l : list PyVal) (v : PyVal) (t : Dtype) :
  __dtypes s = Some f ->
  (convert_dtype py (DtStr s) (VList l) = Ok (v, t) ->
   exists l' x y,
     v = VList l'
     /\ Forall2 (fun x y => exists t', convert_dtype py (DtStr s) x = Ok (y, t'))
          l l'
     /\ last l = Some x /\ convert_dtype py (DtStr s) x = Ok (y, t))
  /\ (convert_dtype py (DtStr s) (VTuple l) = Ok (v, t) ->
      exists l' x y,
        v = VTuple l'
        /\ Forall2 (fun x y => exists t', convert_dtype py (DtStr s) x = Ok (y, t'))
             l l'
        /\ last l = Some x /\ convert_dtype py (DtStr s) x = Ok (y, t)).
Proof.
  intros Ht. pose proof (dtypes_not_numeric _ _ Ht) as Hn.
  split; intros H; simpl in H; rewrite Hn, Ht in H.
  - match type of H with
    | res_bind ?m _ = _ => destruct m as [[ret td]|e] eqn:Hl
    end; simpl in H; [|discriminate].
    apply convert_dtype_loop in Hl as (l' & -> & Hall & Hlast).
    destruct td as [t0|]; [|discriminate]. injection H as <- <-.
    destruct (last l) as [x|]; [|discriminate].
    destruct Hlast as (y & t1 & Hx & [= ->]).
    exists l', x, y. auto.
  - match type of H with
    | res_bind ?m _ = _ => destruct m as [[ret td]|e] eqn:Hl
    end; simpl in H; [|discriminate].
    apply convert_dtype_loop in Hl as (l' & -> & Hall & Hlast).
    destruct td as [t0|]; [|discriminate]. injection H as <- <-.
    destruct (last l) as [x|]; [|discriminate].
    destruct Hlast as (y & t1 & Hx & [= ->]).
    exists l', x, y. auto.
Qed.

(** The conversion of a number against a numeric dtype of the table:
    the type is resolved, then the scalar is made. *)
Lemma convert_dtype_number (s : string) (st : Numpy.dtype) (value : PyVal) :
  __dtypes s = Some (FNp st) ->
  match value with
  | VBool _ | VInt _ | VFloat _ | VNp _ _ => True
  | _ => False
  end ->
  convert_dtype py (DtStr s) value
  = (r ⇐ __resolve_dtype (dtype_of_type value) st;
     v ⇐ np_scalar py r value;
     Ok (v, DtType r))
  /\ forall r,
       (forall v, np_scalar py r value = Ok v -> exists q, v = VNp r q)
       /\ (forall e, np_scalar py r value = Err e ->
             np_cast py r value = Err e).
Proof.
  intros Ht Hv. pose proof (dtypes_not_numeric _ _ Ht) as Hn.
  assert (Hnp : forall r,
             (forall v, np_scalar py r value = Ok v -> exists q, v = VNp r q)
             /\ (forall e, np_scalar py r value = Err e ->
                   np_cast py r value = Err e)).
  { intros r.
    destruct value; try contradiction; unfold np_scalar;
      match goal with
      | |- context [Numpy.cast ?t ?n ?p] => destruct (Numpy.cast t n p) as [q|]
      end;
      (split; [intros v H|intros e H]); try discriminate;
      try (injection H as <-; eauto; fail);
      match type of H with
      | res_bind ?m _ = _ => destruct m as [q|e'] eqn:E
      end; simpl in H; try discriminate;
      try (injection H as <-; eauto; fail);
      injection H as <-; reflexivity. }
  split; [|exact Hnp].
  destruct value; try contradiction;
    cbn -[np_scalar __resolve_dtype String.eqb __dtypes]; rewrite Hn, Ht;
    (match goal with
     | |- res_bind ?m _ = _ => destruct m as [r|e]
     end; cbn -[np_scalar]; [|reflexivity];
     destruct (Hnp r) as [Hok _];
     match goal with
     | |- res_bind ?m _ = _ => destruct m as [v|e] eqn:E
     end; cbn -[np_scalar]; [|reflexivity];
     destruct (Hok v eq_refl) as [q ->]; reflexivity).
Qed.

(** X4.  A number converted against a numeric dtype of the table is
    never narrowed: when the conversion returns, the result is a numpy
    scalar whose type is the specified type or the type of the value
    given, whichever is wider, and that type is the dtype reported.  The
    conversion fails only if [__resolve_dtype] refuses the types or the
    numpy constructor refuses the value.  A numpy integer against an
    integer type that is not narrower is always converted: a value out
    of the range of the type wraps around. *)
Theorem convert_dtype_number_not_narrowed (s : string) (st : Numpy.dtype)
    (value : PyVal) :
  __dtypes s = Some (FNp st) ->
  match value with
  | VBool _ | VInt _ | VFloat _ | VNp _ _ => True
  | _ => False
  end ->
  let given := dtype_of_type value in
  (forall v t,
     convert_dtype py (DtStr s) value = Ok (v, t) ->
     exists r q,
       v = VNp r q /\ t = DtType r
       /\ Numpy.itemsize r = Z.max (Numpy.itemsize given) (Numpy.itemsize st)
       /\ (r = st \/ r = given))
  /\ (forall e,
        convert_dtype py (DtStr s) value = Err e ->
        __resolve_dtype given st = Err e
        \/ exists r, __resolve_dtype given st = Ok r
                     /\ np_cast py r value = Err e)
  /\ (forall g z lo hi,
        value = VNp g (Numpy.PInt z) ->
        Numpy.itemsize g <= Numpy.itemsize st ->
        Numpy.int_range st = Some (lo, hi) ->
        convert_dtype py (DtStr s) value
        = Ok (VNp st (Numpy.PInt (if (lo <=? z) && (z <=? hi) then z
                                  else Numpy.wrap lo hi z)),
              DtType st)).
Proof.
  intros Ht Hv given.
  destruct (convert_dtype_number s st value Ht Hv) as [Hc Hnp].
  fold given in Hc. split; [|split].
  - intros v t H. rewrite Hc in H.
    destruct (__resolve_dtype given st) as [r|e] eqn:Hr; simpl in H;
      [|discriminate].
    destruct (np_scalar py r value) as [v'|e] eqn:Hx; simpl in H;
      [|discriminate].
    injection H as <- <-.
    destruct (proj1 (Hnp r) v' Hx) as [q ->]. exists r, q.
    split; [reflexivity|]. split; [reflexivity|].
    unfold __resolve_dtype in Hr.
    destruct (Z.leb_spec (Numpy.itemsize given) (Numpy.itemsize st)).
    + injection Hr as <-. split; [lia|auto].
    + destruct (negb _); [discriminate|]. injection Hr as <-.
      split; [lia|auto].
  - intros e H. rewrite Hc in H.
    destruct (__resolve_dtype given st) as [r|e'] eqn:Hr; simpl in H.
    + right. exists r. split; [reflexivity|].
      destruct (np_scalar py r value) as [v'|e'] eqn:Hx; simpl in H;
        [discriminate|].
      injection H as <-. apply (proj2 (Hnp r)). exact Hx.
    + left. injection H as <-. reflexivity.
  - intros g z lo hi -> Hle Hrange. rewrite Hc. subst given. simpl.
    rewrite (resolve_dtype_not_wider g st Hle). simpl.
    unfold Numpy.cast. rewrite Hrange.
    destruct ((lo <=? z) && (z <=? hi)); reflexivity.
Qed.

(** X5.  A number whose type is wider than the specified numeric type
    and of another family (the first three letters of the type names
    differ) is refused with a ValueError that names the two types; the
    message asks for "or higher precision" when the specified type is
    narrower than 8 bytes. *)
Theorem convert_dtype_wider_other_family (s : string) (st : Numpy.dtype)
    (value : PyVal) :
  __dtypes s = Some (FNp st) ->
  match value with
  | VBool _ | VInt _ | VFloat _ | VNp _ _ => True
  | _ => False
  end ->
  Numpy.itemsize st < Numpy.itemsize (dtype_of_type value) ->
  prefix3 (Numpy.name (dtype_of_type value)) <> prefix3 (Numpy.name st) ->
  convert_dtype py (DtStr s) value
  = Err (ValueError (MsgDtypeMismatch (Numpy.name st)
                       (Numpy.name (dtype_of_type value))
                       (Numpy.itemsize st <? 8))).
Proof.
  intros Ht Hv Hlt Hne. pose proof (dtypes_not_numeric _ _ Ht) as Hn.
  assert (Hr : __resolve_dtype (dtype_of_type value) st
               = Err (ValueError (MsgDtypeMismatch (Numpy.name st)
                       (Numpy.name (dtype_of_type value))
                       (Numpy.itemsize st <? 8)))).
  { unfold __resolve_dtype.
    destruct (Z.leb_spec (Numpy.itemsize (dtype_of_type value))
                (Numpy.itemsize st)); [lia|].
    apply String.eqb_neq in Hne. rewrite Hne. reflexivity. }
  destruct value; try contradiction; simpl; rewrite Hn, Ht;
    simpl in Hr; rewrite Hr; reflexivity.
Qed.

(** X6.  Against a string dtype of the table, a scalar is converted only
    if it is a str or a bytes; the result is a str reported as ["utf8"]
    for the text family and a bytes reported as ["ascii"] for the ascii
    family (which includes ["isodatetime"]), whatever the spelling of the
    dtype in the spec. *)
Theorem convert_dtype_string_kinds (s : string) (f : DtypeFunc)
    (value v : PyVal) (t : Dtype) :
  __dtypes s = Some f ->
  match f with FNp _ => False | _ => True end ->
  match value with
  | VNone | VDataIO _ | VList _ | VTuple _ | VNdarray _ _ => False
  | _ => True
  end ->
  convert_dtype py (DtStr s) value = Ok (v, t) ->
  (exists x, value = VText x \/ value = VBytes x)
  /\ match f with
     | FUnicode => (exists x, v = VText x) /\ t = DtStr "utf8"
     | _ => (exists x, v = VBytes x) /\ t = DtStr "ascii"
     end.
Proof.
  intros Ht Hf Hv H. pose proof (dtypes_not_numeric _ _ Ht) as Hn.
  destruct f as [st| |]; [contradiction| |].
  - destruct value; try contradiction; simpl in H; rewrite Hn, Ht in H;
      simpl in H; try discriminate.
    + injection H as <- <-. eauto 8.
    + destruct (decode_utf8 py s0) as [x|e]; simpl in H; [|discriminate].
      injection H as <- <-. eauto 8.
  - destruct value; try contradiction; simpl in H; rewrite Hn, Ht in H;
      simpl in H; try discriminate; injection H as <- <-; eauto 8.
Qed.

End CoercerMore.

Lemma convert_dtype_unrecognized_example :
  convert_dtype pylib0 (DtStr "float16") VNone = Ok (VNone, DtStr "float16")
  /\ forall value,
       value <> VNone ->
       (forall d, value <> VDataIO d) ->
       convert_dtype pylib0 (DtStr "float16") value
       = Err (ValueError (MsgUnrecognizedDtype "float16")).
Proof.
  apply (convert_dtype_unrecognized pylib0 "float16");
    [reflexivity|discriminate].
Defined.

Lemma convert_dtype_sequence_example :
  exists l' x y,
    VList [VNp Numpy.int64 (Numpy.PInt 1); VNp Numpy.int64 (Numpy.PInt 2)]
    = VList l'
    /\ Forall2 (fun x y => exists t',
                  convert_dtype pylib0 (DtStr "int32") x = Ok (y, t'))
         [VInt 1; VInt 2] l'
    /\ last [VInt 1; VInt 2] = Some x
    /\ convert_dtype pylib0 (DtStr "int32") x = Ok (y, DtType Numpy.int64).
Proof.
  apply (proj1 (convert_dtype_sequence pylib0 "int32" (FNp Numpy.int32)
                  [VInt 1; VInt 2] _ _ eq_refl)).
  reflexivity.
Defined.

Lemma convert_dtype_number_not_narrowed_example :
  let value := VNp Numpy.uint8 (Numpy.PInt 200) in
  let given := dtype_of_type value in
  (forall v t,
     convert_dtype pylib0 (DtStr "int8") value = Ok (v, t) ->
     exists r q,
       v = VNp r q /\ t = DtType r
       /\ Numpy.itemsize r
          = Z.max (Numpy.itemsize given) (Numpy.itemsize Numpy.int8)
       /\ (r = Numpy.int8 \/ r = given))
  /\ (forall e,
        convert_dtype pylib0 (DtStr "int8") value = Err e ->
        __resolve_dtype given Numpy.int8 = Err e
        \/ exists r, __resolve_dtype given Numpy.int8 = Ok r
                     /\ np_cast pylib0 r value = Err e)
  /\ (forall g z lo hi,
        value = VNp g (Numpy.PInt z) ->
        Numpy.itemsize g <= Numpy.itemsize Numpy.int8 ->
        Numpy.int_range Numpy.int8 = Some (lo, hi) ->
        convert_dtype pylib0 (DtStr "int8") value
        = Ok (VNp Numpy.int8
                (Numpy.PInt (if (lo <=? z) && (z <=? hi) then z
                             else Numpy.wrap lo hi z)),
              DtType Numpy.int8)).
Proof.
  intros value given.
  apply (convert_dtype_number_not_narrowed pylib0 "int8" Numpy.int8 value
           eq_refl I).
Defined.

(** A numpy uint8 of value 200 against the dtype int8 becomes int8(-56);
    a Python int, 64 bits wide, keeps its width against int32. *)
Example convert_dtype_uint8_200_int8 :
  convert_dtype pylib0 (DtStr "int8") (VNp Numpy.uint8 (Numpy.PInt 200))
  = Ok (VNp Numpy.int8 (Numpy.PInt (-56)), DtType Numpy.int8)
  /\ convert_dtype pylib0 (DtStr "int32") (VInt 7)
     = Ok (VNp Numpy.int64 (Numpy.PInt 7), DtType Numpy.int64).
Proof. split; reflexivity. Qed.

Lemma convert_dtype_wider_other_family_example :
  convert_dtype pylib0 (DtStr "int32") (VFloat five_float)
  = Err (ValueError (MsgDtypeMismatch "int32" "float64" true)).
Proof.
  apply (convert_dtype_wider_other_family pylib0 "int32" Numpy.int32
           (VFloat five_float) eq_refl I).
  - reflexivity.
  - vm_compute. discriminate.
Defined.

Lemma convert_dtype_string_kinds_example :
  (exists x, VText "a" = VText x \/ VText "a" = VBytes x)
  /\ (exists x, VBytes "a" = VBytes x) /\ DtStr "ascii" = DtStr "ascii".
Proof.
  apply (convert_dtype_string_kinds pylib0 "isodatetime" FAscii (VText "a")
           (VBytes "a") (DtStr "ascii") eq_refl I I).
  reflexivity.
Defined.

(** ** Name Deriver *)

Section NameFacts.
Import NameDeriver.

Lemma to_lower_not_upper (c : ascii) : is_upper (to_lower c) = false.
Proof.
  destruct c as [[] [] [] [] [] [] [] []]; vm_compute; reflexivity.
Qed.

Lemma list_ascii_of_string_app (a b : string) :
  list_ascii_of_string (a ++ b)
  = (list_ascii_of_string a ++ list_ascii_of_string b)%list.
Proof.
  induction a as [|c a IH]; simpl; [reflexivity|]. rewrite IH. reflexivity.
Qed.

Lemma snake_case_chars (n : string) :
  list_ascii_of_string (snake_case n)
  = map to_lower (sub_camel false (sub_word Outside (list_ascii_of_string n))).
Proof. unfold snake_case. apply list_ascii_of_string_of_list_ascii. Qed.

(** What a successful [convert_dt_name] has computed. *)
Lemma convert_dt_name_inv (spec : Spec) (n : string) :
  convert_dt_name spec = Ok n ->
  exists n0 c,
    (spec_data_type_def spec = Some n0
     \/ (spec_data_type_def spec = None /\ spec_data_type_inc spec = Some n0))
    /\ last (list_ascii_of_string (snake_case n0)) = Some c
    /\ n = (if negb (Ascii.eqb c "s"%char) && spec_is_many spec
            then snake_case n0 ++ "s" else snake_case n0).
Proof.
  unfold convert_dt_name. intros H.
  destruct spec as [a|ds|gs|l]; try discriminate;
    match type of H with
    | context [spec_data_type_def ?sp] =>
        destruct (spec_data_type_def sp) as [d|] eqn:Ed;
          [|destruct (spec_data_type_inc sp) as [i|] eqn:Ei; [|discriminate]]
    end;
    simpl in H;
    match type of H with
    | match last ?l with _ => _ end = _ => destruct (last l) as [c|] eqn:El
    end; try discriminate; injection H as <-; eauto 8.
Qed.

(** X7.  The name [convert_dt_name] derives from a data type holds no
    capital letter. *)
Theorem convert_dt_name_lower_case (spec : Spec) (n : string) :
  convert_dt_name spec = Ok n ->
  Forall (fun c => is_upper c = false) (list_ascii_of_string n).
Proof.
  intros H. apply convert_dt_name_inv in H as (n0 & c & _ & _ & ->).
  assert (Hs : Forall (fun c => is_upper c = false)
                 (list_ascii_of_string (snake_case n0))).
  { rewrite snake_case_chars. apply Forall_map, Forall_forall.
    intros x _. apply to_lower_not_upper. }
  destruct (negb _ && _); [|exact Hs].
  rewrite list_ascii_of_string_app. apply Forall_app. split; [exact Hs|].
  repeat constructor.
Qed.

(** X8.  For a spec whose quantity is many, the name derived by
    [convert_dt_name] ends in ["s"]. *)
Theorem convert_dt_name_plural (spec : Spec) (n : string) :
  spec_is_many spec = true ->
  convert_dt_name spec = Ok n ->
  last (list_ascii_of_string n) = Some "s"%char.
Proof.
  intros Hm H. apply convert_dt_name_inv in H as (n0 & c & _ & Hl & ->).
  rewrite Hm, andb_true_r.
  destruct (Ascii.eqb c "s") eqn:E; simpl.
  - apply Ascii.eqb_eq in E. subst c. exact Hl.
  - rewrite list_ascii_of_string_app. apply last_snoc.
Qed.

Lemma sub_word_cons (st : Scan1) (c : ascii) (tl : list ascii) :
  sub_word st (c :: tl)
  = match st with
    | OnCapital => c :: sub_word InRun tl
    | _ =>
        if match st with InRun => is_lower c | _ => false end
        then c :: sub_word InRun tl
        else
          match tl with
          | u :: lo :: _ =>
              if negb (is_newline c) && is_upper u && is_lower lo
              then c :: underscore :: sub_word OnCapital tl
              else c :: sub_word Outside tl
          | _ => c :: sub_word Outside tl
          end
    end.
Proof. reflexivity. Qed.

Lemma sub_camel_cons (skip : bool) (c : ascii) (tl : list ascii) :
  sub_camel skip (c :: tl)
  = if skip then c :: sub_camel false tl
    else
      match tl with
      | u :: _ =>
          if (is_lower c || is_digit c) && is_upper u
          then c :: underscore :: sub_camel true tl
          else c :: sub_camel false tl
      | [] => [c]
      end.
Proof. reflexivity. Qed.

Lemma sub_word_plain (l : list ascii) :
  Forall (fun c => is_upper c = false) l ->
  forall st, sub_word st l = l.
Proof.
  induction 1 as [|c tl Hc Htl IH]; intros st; [reflexivity|].
  rewrite sub_word_cons, !IH.
  assert (Ht : match tl with
               | u :: lo :: _ =>
                   if negb (is_newline c) && is_upper u && is_lower lo
                   then c :: underscore :: tl
                   else c :: tl
               | _ => c :: tl
               end = c :: tl).
  { destruct tl as [|u [|lo tl']]; try reflexivity.
    inversion Htl as [|? ? Hu _]; subst. rewrite Hu, andb_false_r.
    reflexivity. }
  destruct st; [exact Ht|reflexivity|].
  destruct (is_lower c); [reflexivity|exact Ht].
Qed.

Lemma sub_camel_plain (l : list ascii) :
  Forall (fun c => is_upper c = false) l ->
  forall skip, sub_camel skip l = l.
Proof.
  induction 1 as [|c tl Hc Htl IH]; intros skip; [reflexivity|].
  rewrite sub_camel_cons, !IH.
  destruct skip; [reflexivity|].
  destruct tl as [|u tl']; [reflexivity|].
  inversion Htl as [|? ? Hu _]; subst. rewrite Hu, andb_false_r.
  reflexivity.
Qed.

Lemma to_lower_fixed (c : ascii) : to_lower c = c -> is_upper c = false.
Proof.
  destruct c as [[] [] [] [] [] [] [] []]; vm_compute; congruence.
Qed.

Lemma to_lower_plain (l : list ascii) :
  Forall (fun c => to_lower c = c) l -> map to_lower l = l.
Proof.
  induction 1 as [|c tl Hc _ IH]; [reflexivity|].
  simpl. rewrite Hc, IH. reflexivity.
Qed.

Lemma snake_case_plain (n : string) :
  Forall (fun c => to_lower c = c) (list_ascii_of_string n) ->
  snake_case n = n.
Proof.
  intros H. unfold snake_case.
  assert (Hu : Forall (fun c => is_upper c = false) (list_ascii_of_string n)).
  { apply Forall_forall. intros x Hx. apply to_lower_fixed.
    exact (proj1 (Forall_forall _ _) H x Hx). }
  rewrite (sub_word_plain _ Hu), (sub_camel_plain _ Hu), (to_lower_plain _ H).
  apply string_of_list_ascii_of_string.
Qed.

(** X9.  A data type defined under a name that [str.lower] leaves as it
    is (a name without capital letters) is its own derived name: no
    underscore is inserted and no letter changed; only the ["s"] of a
    spec that is many is appended, unless the name ends in ["s"]
    already. *)
Theorem convert_dt_name_plain (spec : Spec) (n : string) (c : ascii) :
  spec_data_type_def spec = Some n ->
  Forall (fun c => to_lower c = c) (list_ascii_of_string n) ->
  last (list_ascii_of_string n) = Some c ->
  convert_dt_name spec
  = Ok (if spec_is_many spec && negb (Ascii.eqb c "s"%char)
        then n ++ "s" else n).
Proof.
  intros Hd Hp Hl. unfold convert_dt_name.
  destruct spec as [a|ds|gs|l]; try discriminate;
    rewrite Hd; simpl;
    rewrite (snake_case_plain _ Hp), Hl, andb_comm; reflexivity.
Qed.

(** The body of [__get_fields] on a named spec that is not descended
    into: an attribute, a link, or a dataset or group that carries a data
    type. *)
Lemma get_fields_body_leaf children spec n st :
  spec_name spec = Some n ->
  is_storage_spec spec = false
  \/ untyped (spec_data_type_def spec) (spec_data_type_inc spec) = false ->
  get_fields_body children spec st
  = Ok (mkFields
          (if is_storage_spec spec then (name_stack st ++ [n])%list
           else name_stack st)
          (odict_set (if odict_mem n (all_names st)
                      then join_underscore (name_stack st ++ [n])
                      else n) spec (all_names st))).
Proof.
  intros Hn Hk. unfold get_fields_body. rewrite Hn. simpl.
  destruct (is_storage_spec spec).
  - destruct Hk as [Hk|Hk]; [discriminate|]. rewrite Hk. reflexivity.
  - simpl. rewrite removelast_last. reflexivity.
Qed.

Lemma get_fields_leaf spec n st :
  spec_name spec = Some n ->
  is_storage_spec spec = false
  \/ untyped (spec_data_type_def spec) (spec_data_type_inc spec) = false ->
  __get_fields spec st
  = Ok (mkFields
          (if is_storage_spec spec then (name_stack st ++ [n])%list
           else name_stack st)
          (odict_set (if odict_mem n (all_names st)
                      then join_underscore (name_stack st ++ [n])
                      else n) spec (all_names st))).
Proof.
  intros Hn Hk. destruct spec as [a|d|g|l].
  - exact (get_fields_body_leaf _ (SAttr a) n st Hn Hk).
  - exact (get_fields_body_leaf _ (SData d) n st Hn Hk).
  - destruct g. exact (get_fields_body_leaf _ (SGroup _) n st Hn Hk).
  - exact (get_fields_body_leaf _ (SLink l) n st Hn Hk).
Qed.

(** X10.  At the top level of [get_attr_names] a name that is taken is
    not disambiguated: the name stack holds the name alone, so the joined
    name is the name itself.  A named attribute, link or typed
    sub-spec whose name is already a key replaces the spec filed under
    it, and the keys stay as they were. *)
Theorem top_call_replaces (spec : Spec) (n : string) (names : odict) :
  spec_name spec = Some n ->
  is_storage_spec spec = false
  \/ untyped (spec_data_type_def spec) (spec_data_type_inc spec) = false ->
  top_call spec names = Ok (odict_set n spec names)
  /\ In (n, spec) (odict_set n spec names)
  /\ (In n (keys names) -> keys (odict_set n spec names) = keys names).
Proof.
  intros Hn Hk. split; [|split].
  - unfold top_call. rewrite (get_fields_leaf spec n _ Hn Hk). simpl.
    destruct (odict_mem n names); reflexivity.
  - clear. induction names as [|[k' v'] d IH]; simpl; [auto|].
    destruct (String.eqb n k'); simpl; auto.
  - clear. induction names as [|[k' v'] d IH]; simpl; [tauto|].
    intros Hin. destruct (String.eqb_spec n k') as [->|Hne]; simpl;
      [reflexivity|].
    f_equal. apply IH. destruct Hin; [congruence|assumption].
Qed.

(** X11.  [__get_fields] pushes the name of the spec on the name stack
    and pops it again for an attribute or a link; for a dataset or group
    that carries a data type it returns before the pop, and the name
    stays on the stack of the caller. *)
Theorem get_fields_stack (spec : Spec) (n : string) (st st' : Fields) :
  spec_name spec = Some n ->
  __get_fields spec st = Ok st' ->
  (is_storage_spec spec = false -> name_stack st' = name_stack st)
  /\ (is_storage_spec spec = true ->
      untyped (spec_data_type_def spec) (spec_data_type_inc spec) = false ->
      name_stack st' = (name_stack st ++ [n])%list).
Proof.
  intros Hn H. split.
  - intros Hs. rewrite (get_fields_leaf spec n st Hn (or_introl Hs)) in H.
    injection H as <-. simpl. rewrite Hs. reflexivity.
  - intros Hs Hu. rewrite (get_fields_leaf spec n st Hn (or_intror Hu)) in H.
    injection H as <-. simpl. rewrite Hs. reflexivity.
Qed.

(** The keys of the ordered dictionary stay pairwise distinct. *)
Lemma odict_mem_keys (k : string) (d : odict) :
  odict_mem k d = true <-> In k (keys d).
Proof.
  induction d as [|[k' v'] d IH]; simpl; [split; [discriminate|tauto]|].
  rewrite orb_true_iff, IH, String.eqb_eq. intuition congruence.
Qed.

Lemma odict_set_keys (k : string) (v : Spec) (d : odict) :
  keys (odict_set k v d)
  = if odict_mem k d then keys d else (keys d ++ [k])%list.
Proof.
  induction d as [|[k' v'] d IH]; simpl; [reflexivity|].
  destruct (String.eqb_spec k k') as [->|Hne]; simpl; [reflexivity|].
  change (map fst (odict_set k v d)) with (keys (odict_set k v d)).
  rewrite IH. destruct (odict_mem k d); reflexivity.
Qed.

Lemma odict_set_nodup (k : string) (v : Spec) (d : odict) :
  NoDup (keys d) -> NoDup (keys (odict_set k v d)).
Proof.
  intros H. rewrite odict_set_keys.
  destruct (odict_mem k d) eqn:E; [exact H|].
  apply NoDup_app. split; [exact H|]. split; [|apply NoDup_singleton].
  intros x Hx Hk. apply list_elem_of_singleton in Hk. subst x.
  apply list_elem_of_In, odict_mem_keys in Hx. congruence.
Qed.

Lemma forM_keeps_nodup {A} (f : A -> Fields -> Res Fields) (l : list A) :
  Forall (fun x => keeps_nodup (f x)) l -> keeps_nodup (forM f l).
Proof.
  induction 1 as [|x rest Hx _ IH]; intros st st' H Hn; simpl in H.
  - injection H as <-. exact Hn.
  - destruct (f x st) as [s1|e] eqn:E; simpl in H; [|discriminate].
    eapply IH; [exact H|]. eapply Hx; eassumption.
Qed.

Lemma get_fields_body_keeps_nodup children spec :
  keeps_nodup children -> keeps_nodup (get_fields_body children spec).
Proof.
  intros Hc st st' H Hn. unfold get_fields_body in H.
  destruct (match spec_name spec with
            | Some n => Ok n
            | None => convert_dt_name spec
            end) as [n|e]; simpl in H; [|discriminate].
  match type of H with
  | context [odict_set ?k spec (all_names st)] =>
      pose proof (odict_set_nodup k spec _ Hn) as Hn'
  end.
  destruct (is_storage_spec spec).
  - destruct (negb _).
    + injection H as <-. exact Hn'.
    + match type of H with
      | res_bind (children ?x) _ = _ =>
          destruct (children x) as [s1|e] eqn:E
      end; simpl in H; [|discriminate].
      injection H as <-. simpl. eapply Hc; [exact E|exact Hn'].
  - injection H as <-. exact Hn'.
Qed.

Lemma id_keeps_nodup : keeps_nodup (fun st => Ok st).
Proof. intros st st' [= <-] H. exact H. Qed.

Lemma get_fields_attr_keeps_nodup a : keeps_nodup (get_fields_attr a).
Proof. apply get_fields_body_keeps_nodup, id_keeps_nodup. Qed.

Lemma get_fields_link_keeps_nodup l : keeps_nodup (get_fields_link l).
Proof. apply get_fields_body_keeps_nodup, id_keeps_nodup. Qed.

Lemma get_fields_dataset_keeps_nodup d : keeps_nodup (get_fields_dataset d).
Proof.
  apply get_fields_body_keeps_nodup, forM_keeps_nodup, Forall_forall.
  intros a _. apply get_fields_attr_keeps_nodup.
Qed.

Lemma get_fields_group_keeps_nodup : forall g, keeps_nodup (get_fields_group g).
Proof.
  fix IH 1. intros [i n attrs dsets groups links def inc dn q].
  simpl. apply get_fields_body_keeps_nodup. intros st st' H Hn.
  destruct (forM get_fields_attr attrs st) as [s1|e] eqn:E1;
    simpl in H; [|discriminate].
  destruct (forM get_fields_dataset dsets s1) as [s2|e] eqn:E2;
    simpl in H; [|discriminate].
  destruct (forM get_fields_group groups s2) as [s3|e] eqn:E3;
    simpl in H; [|discriminate].
  eapply (forM_keeps_nodup get_fields_link links); [|exact H|].
  { apply Forall_forall. intros l _. apply get_fields_link_keeps_nodup. }
  eapply (forM_keeps_nodup get_fields_group groups); [|exact E3|].
  { clear -IH. induction groups as [|g rest IHr]; constructor.
    - apply IH.
    - exact IHr. }
  eapply (forM_keeps_nodup get_fields_dataset dsets); [|exact E2|].
  { apply Forall_forall. intros d _. apply get_fields_dataset_keeps_nodup. }
  eapply (forM_keeps_nodup get_fields_attr attrs); [|exact E1|exact Hn].
  apply Forall_forall. intros a _. apply get_fields_attr_keeps_nodup.
Qed.

Lemma get_fields_keeps_nodup spec : keeps_nodup (__get_fields spec).
Proof.
  destruct spec; simpl.
  - apply get_fields_attr_keeps_nodup.
  - apply get_fields_dataset_keeps_nodup.
  - apply get_fields_group_keeps_nodup.
  - apply get_fields_link_keeps_nodup.
Qed.

Lemma top_calls_nodup {A} (inj : A -> Spec) (l : list A) (names names' : odict) :
  forM (fun x => top_call (inj x)) l names = Ok names' ->
  NoDup (keys names) -> NoDup (keys names').
Proof.
  revert names. induction l as [|x rest IH]; intros names H Hn; simpl in H.
  - injection H as <-. exact Hn.
  - unfold top_call at 1 in H.
    destruct (__get_fields (inj x) _) as [s1|e] eqn:E; simpl in H; [|discriminate].
    eapply IH; [exact H|].
    apply (get_fields_keeps_nodup _ _ _ E). exact Hn.
Qed.

Lemma get_attr_names_nodup (spec : Spec) (names : odict) :
  get_attr_names spec = Ok names -> NoDup (keys names).
Proof.
  intros H. destruct spec as [a|d|g|l]; simpl in H; try discriminate.
  - eapply (top_calls_nodup SAttr); [exact H|constructor].
  - destruct (forM _ (gs_attributes g) []) as [n1|e] eqn:E1;
      simpl in H; [|discriminate].
    destruct (forM _ (gs_groups g) n1) as [n2|e] eqn:E2;
      simpl in H; [|discriminate].
    destruct (forM _ (gs_datasets g) n2) as [n3|e] eqn:E3;
      simpl in H; [|discriminate].
    eapply (top_calls_nodup SLink); [exact H|].
    eapply (top_calls_nodup SData); [exact E3|].
    eapply (top_calls_nodup SGroup); [exact E2|].
    eapply (top_calls_nodup SAttr); [exact E1|constructor].
Qed.

End NameFacts.

Lemma convert_dt_name_lower_case_example :
  Forall (fun c => NameDeriver.is_upper c = false)
    (list_ascii_of_string "time_series").
Proof.
  apply (convert_dt_name_lower_case
           (SGroup (mkGroupSpec 9 None [] [] [] [] (Some "TimeSeries") None
                      None QZeroOrMany))).
  vm_compute. reflexivity.
Defined.

Lemma convert_dt_name_plural_example :
  last (list_ascii_of_string "foos") = Some "s"%char.
Proof.
  apply (convert_dt_name_plural (SGroup World.kids)); vm_compute; reflexivity.
Defined.

Lemma convert_dt_name_plain_example :
  NameDeriver.convert_dt_name
    (SGroup (mkGroupSpec 9 None [] [] [] [] (Some "electrode") None None
               QZeroOrMany))
  = Ok "electrodes".
Proof.
  apply (convert_dt_name_plain
           (SGroup (mkGroupSpec 9 None [] [] [] [] (Some "electrode") None
                      None QZeroOrMany))
           "electrode" "e"%char).
  - reflexivity.
  - repeat constructor.
  - reflexivity.
Defined.

Lemma top_call_replaces_example :
  let names := [("g", SGroup NameExample.g); ("bar", SAttr World.baz)] in
  NameDeriver.top_call (SAttr World.bar) names
  = Ok [("g", SGroup NameExample.g); ("bar", SAttr World.bar)]
  /\ In ("bar", SAttr World.bar)
       [("g", SGroup NameExample.g); ("bar", SAttr World.bar)]
  /\ (In "bar" (NameDeriver.keys names) -> ["g"; "bar"] = ["g"; "bar"]).
Proof.
  intros names.
  apply (top_call_replaces (SAttr World.bar) "bar" names eq_refl).
  left. reflexivity.
Defined.

Lemma get_fields_stack_example :
  let t := SGroup NameExample.t in
  let st := NameDeriver.mkFields ["g"] [] in
  (is_storage_spec t = false -> ["g"; "t"] = ["g"])
  /\ (is_storage_spec t = true ->
      untyped (spec_data_type_def t) (spec_data_type_inc t) = false ->
      ["g"; "t"] = ["g"; "t"]).
Proof.
  intros t st.
  apply (get_fields_stack t "t" st
           (NameDeriver.mkFields ["g"; "t"] [("t", t)]) eq_refl).
  reflexivity.
Defined.

(** ** Spec<->Field Index *)

Lemma map_items_other (items : list (string * Spec)) (m : ObjectMapper)
    (k : string) :
  ~ In k (NameDeriver.keys items) ->
  om_attr2spec (Mapper.map_items items m) !! k = om_attr2spec m !! k
  /\ om_carg2spec (Mapper.map_items items m) !! k = om_carg2spec m !! k.
Proof.
  revert m. induction items as [|[k' v'] rest IH]; intros m Hk; [auto|].
  simpl in Hk. unfold Mapper.map_items. simpl.
  destruct (IH (Mapper.map_spec k' v' m)) as [Ha Hc]; [tauto|].
  unfold Mapper.map_items in Ha, Hc. rewrite Ha, Hc. simpl.
  rewrite !lookup_insert_ne by tauto. auto.
Qed.

Lemma map_items_other_id (items : list (string * Spec)) (m : ObjectMapper)
    (i : nat) :
  ~ In i (map (fun kv => spec_id (snd kv)) items) ->
  om_spec2attr (Mapper.map_items items m) !! i = om_spec2attr m !! i
  /\ om_spec2carg (Mapper.map_items items m) !! i = om_spec2carg m !! i.
Proof.
  revert m. induction items as [|[k' v'] rest IH]; intros m Hk; [auto|].
  simpl in Hk. unfold Mapper.map_items. simpl.
  destruct (IH (Mapper.map_spec k' v' m)) as [Ha Hc]; [tauto|].
  unfold Mapper.map_items in Ha, Hc. rewrite Ha, Hc. simpl.
  rewrite !lookup_insert_ne by tauto. auto.
Qed.

Lemma map_items_name (items : list (string * Spec)) (m : ObjectMapper)
    (k : string) (v : Spec) :
  NoDup (NameDeriver.keys items) -> In (k, v) items ->
  om_attr2spec (Mapper.map_items items m) !! k = Some v
  /\ om_carg2spec (Mapper.map_items items m) !! k = Some v.
Proof.
  revert m. induction items as [|[k' v'] rest IH]; intros m Hn Hin;
    [contradiction|].
  apply NoDup_cons in Hn as [Hk Hn]. destruct Hin as [[= -> ->]|Hin].
  - destruct (map_items_other rest (Mapper.map_spec k v m) k) as [Ha Hc].
    { intros Hin. apply Hk, list_elem_of_In. exact Hin. }
    unfold Mapper.map_items in *. simpl. rewrite Ha, Hc. simpl.
    rewrite !lookup_insert_eq. auto.
  - apply (IH (Mapper.map_spec k' v' m) Hn Hin).
Qed.

Lemma map_items_spec (items : list (string * Spec)) (m : ObjectMapper)
    (k : string) (v : Spec) :
  NoDup (map (fun kv => spec_id (snd kv)) items) -> In (k, v) items ->
  om_spec2attr (Mapper.map_items items m) !! spec_id v = Some k
  /\ om_spec2carg (Mapper.map_items items m) !! spec_id v = Some k.
Proof.
  revert m. induction items as [|[k' v'] rest IH]; intros m Hn Hin;
    [contradiction|].
  simpl in Hn. apply NoDup_cons in Hn as [Hk Hn].
  destruct Hin as [[= -> ->]|Hin].
  - destruct (map_items_other_id rest (Mapper.map_spec k v m) (spec_id v))
      as [Ha Hc].
    { intros Hin. apply Hk, list_elem_of_In. exact Hin. }
    unfold Mapper.map_items in *. simpl. rewrite Ha, Hc. simpl.
    rewrite !lookup_insert_eq. auto.
  - apply (IH (Mapper.map_spec k' v' m) Hn Hin).
Qed.

(** X12.  A mapper made by [ObjectMapper.__init__] maps every name that
    [get_attr_names] derives to the spec it was derived for, as attribute
    and as constructor argument, and maps no other name; when the specs
    collected are distinct objects, every one of them maps back to its
    name. *)
Theorem init_maps_names (obj_attrs : gmap string Handler) (spec : Spec)
    (m : ObjectMapper) :
  Mapper.init obj_attrs spec = Ok m ->
  exists names,
    NameDeriver.get_attr_names spec = Ok names
    /\ (forall k v, In (k, v) names ->
          Mapper.get_attr_spec m k = Some v
          /\ om_carg2spec m !! k = Some v
          /\ (NoDup (map (fun kv => spec_id (snd kv)) names) ->
              Mapper.get_attribute m v = Some k
              /\ Mapper.get_const_arg m v = Some k))
    /\ (forall k, ~ In k (NameDeriver.keys names) ->
          Mapper.get_attr_spec m k = None).
Proof.
  unfold Mapper.init. intros H.
  destruct (NameDeriver.get_attr_names spec) as [names|e] eqn:E;
    simpl in H; [|discriminate].
  injection H as <-. exists names. split; [reflexivity|].
  pose proof (get_attr_names_nodup _ _ E) as Hn. split.
  - intros k v Hin.
    destruct (map_items_name names (mkObjectMapper spec ∅ ∅ ∅ ∅ obj_attrs)
                k v Hn Hin) as [Ha Hc].
    split; [exact Ha|]. split; [exact Hc|]. intros Hi.
    apply (map_items_spec names _ k v Hi Hin).
  - intros k Hk.
    destruct (map_items_other names (mkObjectMapper spec ∅ ∅ ∅ ∅ obj_attrs)
                k Hk) as [Ha _].
    unfold Mapper.get_attr_spec. rewrite Ha. apply lookup_empty.
Qed.

Lemma init_maps_names_example :
  exists names,
    NameDeriver.get_attr_names (SGroup World.foo) = Ok names
    /\ (forall k v, In (k, v) names ->
          Mapper.get_attr_spec World.mapper k = Some v
          /\ om_carg2spec World.mapper !! k = Some v
          /\ (NoDup (map (fun kv => spec_id (snd kv)) names) ->
              Mapper.get_attribute World.mapper v = Some k
              /\ Mapper.get_const_arg World.mapper v = Some k))
    /\ (forall k, ~ In k (NameDeriver.keys names) ->
          Mapper.get_attr_spec World.mapper k = None).
Proof.
  apply (init_maps_names ∅ (SGroup World.foo) World.mapper).
  vm_compute. reflexivity.
Defined.

(** X13.  [map_spec(name, spec)] makes [name] the attribute and the
    constructor argument of [spec], and [spec] the spec of [name].
    [unmap(spec)] removes the first two only: afterwards the spec has no
    attribute and no constructor argument, but [get_attr_spec(name)]
    still returns the spec, and the carg->spec table still holds it. *)
Theorem map_spec_unmap (m : ObjectMapper) (name : string) (spec : Spec) :
  let m1 := Mapper.map_spec name spec m in
  let m2 := Mapper.unmap spec m1 in
  (Mapper.get_attribute m1 spec = Some name
   /\ Mapper.get_const_arg m1 spec = Some name
   /\ Mapper.get_attr_spec m1 name = Some spec)
  /\ (Mapper.get_attribute m2 spec = None
      /\ Mapper.get_const_arg m2 spec = None
      /\ Mapper.get_attr_spec m2 name = Some spec
      /\ om_carg2spec m2 !! name = Some spec).
Proof.
  simpl. unfold Mapper.get_attribute, Mapper.get_const_arg,
    Mapper.get_attr_spec. simpl.
  rewrite !lookup_insert_eq, !lookup_delete_eq. auto 10.
Qed.

(** X14.  Mapping a second spec to a name that is taken does not unmap
    the first: the name now belongs to the new spec, while the old spec
    still reports the name as its attribute and constructor argument. *)
Theorem map_spec_shadows (m : ObjectMapper) (name : string)
    (old new : Spec) :
  spec_id old <> spec_id new ->
  let m' := Mapper.map_spec name new (Mapper.map_spec name old m) in
  Mapper.get_attr_spec m' name = Some new
  /\ Mapper.get_attribute m' new = Some name
  /\ Mapper.get_attribute m' old = Some name
  /\ Mapper.get_const_arg m' old = Some name.
Proof.
  intros Hne. simpl. unfold Mapper.get_attribute, Mapper.get_const_arg,
    Mapper.get_attr_spec. simpl.
  rewrite !lookup_insert_eq.
  rewrite !(lookup_insert_ne _ (spec_id new) (spec_id old)) by congruence.
  rewrite !lookup_insert_eq. auto.
Qed.

Lemma map_spec_shadows_example :
  let m' := Mapper.map_spec "x" (SAttr World.baz)
              (Mapper.map_spec "x" (SAttr World.bar) World.mapper) in
  Mapper.get_attr_spec m' "x" = Some (SAttr World.baz)
  /\ Mapper.get_attribute m' (SAttr World.baz) = Some "x"
  /\ Mapper.get_attribute m' (SAttr World.bar) = Some "x"
  /\ Mapper.get_const_arg m' (SAttr World.bar) = Some "x".
Proof.
  apply (map_spec_shadows World.mapper "x" (SAttr World.bar)
           (SAttr World.baz)).
  discriminate.
Defined.

(** ** TypeMap.get_map *)

Section GetMapFacts.
Variable tm : TypeMap.

Lemma get_map_inv (c : cid) (s s' : State) (m : ObjectMapper) :
  get_map tm c s = (Ok m, s') ->
  exists x ns dt spec,
    containers s !! c = Some x
    /\ tm_data_types tm !! c_cls x = Some (ns, dt)
    /\ tm_get_spec tm ns dt = Some spec
    /\ mappers s' !! c_cls x = Some m
    /\ s' = (match mappers s !! c_cls x with
             | Some _ => s
             | None => set_mappers (insert (c_cls x) m) s
             end).
Proof.
  unfold get_map, get_container_ns_dt. unfold_monad. intros H.
  destruct (containers s !! c) as [x|] eqn:Hx; [|discriminate].
  destruct (tm_data_types tm !! c_cls x) as [[ns dt]|] eqn:Hd; [|discriminate].
  destruct (tm_get_spec tm ns dt) as [spec|] eqn:Hs; [|discriminate].
  exists x, ns, dt, spec. repeat (split; [reflexivity|]).
  destruct (mappers s !! c_cls x) as [m0|] eqn:Hm.
  - injection H as <- <-. auto.
  - destruct (Mapper.init _ spec) as [m1|e]; [|discriminate].
    injection H as <- <-. simpl. rewrite lookup_insert_eq. auto.
Qed.

(** X15.  [get_map] makes one mapper per container class: once it has
    returned a mapper for a container, it returns the same mapper, and
    changes nothing, for every container of the same class. *)
Theorem get_map_memo (c : cid) (s s' : State) (m : ObjectMapper) :
  get_map tm c s = (Ok m, s') ->
  forall c2 x x2,
    containers s !! c = Some x ->
    containers s' !! c2 = Some x2 ->
    c_cls x2 = c_cls x ->
    get_map tm c2 s' = (Ok m, s').
Proof.
  intros H c2 x x2 Hx Hx2 Hc.
  apply get_map_inv in H as (x' & ns & dt & spec & Hx' & Hd & Hs & Hm & _).
  rewrite Hx in Hx'. injection Hx' as <-.
  unfold get_map, get_container_ns_dt. unfold_monad.
  rewrite Hx2, Hc, Hd, Hs, Hm. reflexivity.
Qed.

End GetMapFacts.

Lemma get_map_memo_example :
  let s' := set_mappers (insert 0%nat World.mapper) World.s_new in
  get_map World.tm 2%nat s' = (Ok World.mapper, s').
Proof.
  intros s'.
  apply (get_map_memo World.tm 0%nat World.s_new s' World.mapper)
    with (x := World.a_foo "f" PNone None true)
         (x2 := World.a_foo "grandkid" (PContainer 1) None true).
  - vm_compute. reflexivity.
  - reflexivity.
  - vm_compute. reflexivity.
  - reflexivity.
Defined.

(** ** BuildManager *)

Section ManagerMore.
Variable tm_build : cid -> option string -> option bid -> M bid.

(** X16.  A container whose cached builder is not a GroupBuilder is
    never built again: modified or not, and whatever the source, the
    cached builder is returned and nothing changes. *)
Theorem build_cached_not_group (s : State) (c : cid) (x : Container)
    (b : bid) (bl : Builder) (source : option string) :
  mgr_builders s !! c = Some b ->
  containers s !! c = Some x ->
  builders s !! b = Some bl ->
  b_kind bl <> KGroup ->
  BuildManager_build tm_build c source s = (Ok b, s).
Proof.
  intros Hb Hx Hbl Hk. unfold BuildManager_build. unfold_monad.
  rewrite Hb, Hx. destruct (c_modified x); [|reflexivity].
  rewrite Hbl. destruct (b_kind bl); congruence.
Qed.

(** X17.  [prebuilt(c, b)] registers both directions: afterwards a
    build of the unmodified container [c] returns [b] without building,
    and the builder [b] is known to stand for [c]. *)
Theorem prebuilt_then_build (s : State) (c : cid) (x : Container) (b : bid)
    (source : option string) :
  containers s !! c = Some x ->
  c_modified x = false ->
  exists s1,
    prebuilt c b s = (Ok tt, s1)
    /\ BuildManager_build tm_build c source s1 = (Ok b, s1)
    /\ mgr_containers s1 !! b = Some c.
Proof.
  intros Hx Hm. exists (set_mgr (insert c b) (insert b c) s).
  split; [reflexivity|]. split.
  - unfold BuildManager_build. unfold_monad. simpl.
    rewrite lookup_insert_eq. simpl. rewrite Hx, Hm. reflexivity.
  - simpl. apply lookup_insert_eq.
Qed.

End ManagerMore.

Lemma build_cached_not_group_example :
  let s := mkState {[ 0%nat := World.a_foo "f" PNone None true ]}
             {[ 5%nat := mkBuilder KDataset "d" None None ∅ ∅ ∅ ∅ VNone
                           DtNone None ]}
             {[ 0%nat := 5%nat ]} {[ 5%nat := 0%nat ]} ∅ [] in
  BuildManager_build World.tm_build 0%nat (Some "b.nwb") s = (Ok 5%nat, s).
Proof.
  intros s.
  apply (build_cached_not_group World.tm_build s 0%nat
           (World.a_foo "f" PNone None true) 5%nat
           (mkBuilder KDataset "d" None None ∅ ∅ ∅ ∅ VNone DtNone None)).
  - reflexivity.
  - reflexivity.
  - reflexivity.
  - discriminate.
Defined.

Lemma prebuilt_then_build_example :
  exists s1,
    prebuilt 0%nat 7%nat World.s0 = (Ok tt, s1)
    /\ BuildManager_build World.tm_build 0%nat (Some "a.nwb") s1
       = (Ok 7%nat, s1)
    /\ mgr_containers s1 !! 7%nat = Some 0%nat.
Proof.
  apply (prebuilt_then_build World.tm_build World.s0 0%nat
           (World.a_foo "f" PNone None false)); reflexivity.
Defined.

Section BuildMore.
Variable py : PyLib.
Variable tm : TypeMap.

(** X18.  The build of a container that has no cached builder and no
    container_source, and whose class is not registered, fails with
    "is not mapped to a data_type" after the source was written to the
    container: nothing is cached, and a later build with another source
    fails with "Can't change container_source once set". *)
Theorem build_unregistered (fuel : nat) (s : State) (c : cid) (x : Container)
    (source : option string) :
  containers s !! c = Some x ->
  mgr_builders s !! c = None ->
  c_container_source x = None ->
  tm_data_types tm !! c_cls x = None ->
  let s1 := set_containers (insert c (with_container_source source x)) s in
  build py tm (S fuel) c source s = (Err (ValueError MsgNotMapped), s1)
  /\ mgr_builders s1 !! c = None
  /\ forall src other,
       source = Some src -> other <> Some src ->
       build py tm (S fuel) c other s1
       = (Err (ValueError MsgCantChangeSource), s1).
Proof.
  intros Hx Hb Hs Hd s1. split; [|split].
  - simpl. unfold BuildManager_build. unfold_monad. rewrite Hb, Hx, Hs.
    unfold TypeMap_build, get_map, get_container_ns_dt. unfold_monad.
    state_simpl.
    rewrite lookup_insert_eq. simpl. rewrite Hd. reflexivity.
  - exact Hb.
  - intros src other -> Hne. subst s1.
    change (build py tm (S fuel))
      with (BuildManager_build (TypeMap_build py tm (build py tm fuel))).
    unfold BuildManager_build. unfold_monad.
    state_simpl. rewrite Hb. simpl. state_simpl. rewrite lookup_insert_eq.
    simpl.
    rewrite bool_decide_eq_false_2 by congruence. reflexivity.
Qed.



(** A build without a source of a container that has a
    container_source and no cached builder fails, and changes nothing. *)
Lemma build_without_source_fails (fuel : nat) (c : cid) (x : Container)
    (src : string) (s : State) :
  containers s !! c = Some x ->
  mgr_builders s !! c = None ->
  c_container_source x = Some src ->
  build py tm (S fuel) c None s = (Err (ValueError MsgCantChangeSource), s).
Proof.
  intros Hx Hb Hs.
  change (build py tm (S fuel))
    with (BuildManager_build (TypeMap_build py tm (build py tm fuel))).
  unfold BuildManager_build. unfold_monad. rewrite Hb, Hx, Hs.
  rewrite bool_decide_eq_false_2 by discriminate. reflexivity.
Qed.

(** X20.  An object reference is built without a source:
    [__get_ref_builder] calls [manager.build(container)].  So a
    reference to a container that has a container_source and no cached
    builder fails with "Can't change container_source once set", and
    nothing changes. *)
Theorem ref_builder_no_source (fuel : nat) (r : RefSpec) (c : cid)
    (x : Container) (src : string) (s : State) :
  is_region r = false ->
  containers s !! c = Some x ->
  mgr_builders s !! c = None ->
  c_container_source x = Some src ->
  __get_ref_builder (build py tm (S fuel)) r false (VContainer c) s
  = (Err (ValueError MsgCantChangeSource), s).
Proof.
  intros Hr Hx Hb Hs. unfold __get_ref_builder. rewrite Hr.
  cbn [negb]. cbv iota. unfold m_bind at 1.
  rewrite (build_without_source_fails fuel c x src s Hx Hb Hs). reflexivity.
Qed.

(** X26.  A Data container whose spec declares an object reference as
    dtype, without shape, is referenced to itself: the mapper calls
    [manager.build(container)] on the container it is building, without
    a source.  While the container is built it has no cached builder, so
    when it has a container_source the build fails with "Can't change
    container_source once set". *)
Theorem ObjectMapper_build_reference_to_self (fuel : nat) (m : ObjectMapper)
    (d : DatasetSpec) (r : RefSpec) (c : cid) (x : Container)
    (name src : string) (parent builder : option bid)
    (source : option string) (s s1 : State) :
  om_spec m = SData d ->
  ds_dtype d = DtRef r ->
  is_region r = false ->
  ds_shape d = None ->
  get_builder_name tm c s = (Ok name, s1) ->
  containers s1 !! c = Some x ->
  is_data (c_kind x) = true ->
  mgr_builders s1 !! c = None ->
  c_container_source x = Some src ->
  ObjectMapper_build py tm (build py tm (S fuel)) m c parent source builder s
  = (Err (ValueError MsgCantChangeSource), s1).
Proof.
  intros Hd Hdt Hr Hsh Hn Hx Hk Hb Hs. unfold ObjectMapper_build.
  unfold m_bind at 1. rewrite Hn, Hd. unfold m_bind at 1.
  unfold m_bind at 1. unfold get_container at 1. rewrite Hx, Hk, Hdt, Hsh.
  cbn [negb]. cbv iota. unfold m_bind at 1.
  rewrite (bool_decide_eq_false_2 (is_Some None))
    by (intros [? ?]; discriminate).
  unfold __get_ref_builder. rewrite Hr. cbn [negb]. cbv iota.
  unfold m_bind at 1.
  rewrite (build_without_source_fails fuel c x src s1 Hx Hb Hs). reflexivity.
Qed.

End BuildMore.

Lemma build_unregistered_example :
  let x := mkContainer 9 KContainer (Some "x") PNone None true VNone VNone ∅ in
  let s := mkState {[ 0%nat := x ]} ∅ ∅ ∅ ∅ [] in
  let s1 := set_containers
              (insert 0%nat (with_container_source (Some "a.nwb") x)) s in
  build pylib0 World.tm 1 0%nat (Some "a.nwb") s
  = (Err (ValueError MsgNotMapped), s1)
  /\ mgr_builders s1 !! 0%nat = None
  /\ forall src other,
       Some "a.nwb" = Some src -> other <> Some src ->
       build pylib0 World.tm 1 0%nat other s1
       = (Err (ValueError MsgCantChangeSource), s1).
Proof.
  intros x s s1.
  apply (build_unregistered pylib0 World.tm 0 s 0%nat x (Some "a.nwb"));
    reflexivity.
Defined.


Lemma ref_builder_no_source_example :
  __get_ref_builder (build pylib0 World.tm 1) (mkRefSpec "Foo" "object")
    false (VContainer 0) World.s_read
  = (Err (ValueError MsgCantChangeSource), World.s_read).
Proof.
  apply (ref_builder_no_source pylib0 World.tm 0 (mkRefSpec "Foo" "object")
           0%nat (World.a_foo "f" PNone (Some "a.nwb") false) "a.nwb");
    reflexivity.
Defined.

Lemma ObjectMapper_build_reference_to_self_example :
  ObjectMapper_build pylib0 RefWorld.tm (build pylib0 RefWorld.tm 1)
    RefWorld.mapper 0%nat None (Some "a.nwb") None RefWorld.s_stamped
  = (Err (ValueError MsgCantChangeSource),
     set_mappers (insert 1%nat RefWorld.mapper) RefWorld.s_stamped).
Proof.
  apply (ObjectMapper_build_reference_to_self pylib0 RefWorld.tm 0
           RefWorld.mapper RefWorld.ref_data (mkRefSpec "Foo" "object")
           0%nat (RefWorld.a_ref (Some "a.nwb")) "r" "a.nwb").
  - reflexivity.
  - reflexivity.
  - reflexivity.
  - reflexivity.
  - vm_compute. reflexivity.
  - reflexivity.
  - reflexivity.
  - reflexivity.
  - reflexivity.
Defined.

(** The whole build of such a Data with a source: the source is written
    to the container, then the reference to the container itself is
    built without a source, and fails. *)
Example build_reference_dataset :
  build pylib0 RefWorld.tm 5 0%nat (Some "a.nwb") RefWorld.s0
  = (Err (ValueError MsgCantChangeSource),
     set_mappers (insert 1%nat RefWorld.mapper) RefWorld.s_stamped).
Proof. vm_compute. reflexivity. Qed.

(** Without a source the same build calls itself again and again. *)
Example build_reference_dataset_no_source :
  fst (build pylib0 RefWorld.tm 5 0%nat None RefWorld.s0)
  = Err RecursionError.
Proof. vm_compute. reflexivity. Qed.

(** ** ObjectMapper: the build path *)

Lemma scan_items_flat (l : list PyVal) :
  Forall (fun t => has_len t = false \/ is_container_or_string t = true
                   \/ py_len t = 0%nat) l ->
  scan_items l <> AtSized.
Proof.
  induction 1 as [|t rest Ht _ IH]; simpl; [discriminate|].
  destruct (is_number t); [discriminate|].
  destruct Ht as [Ht|[Ht|Ht]]; rewrite Ht; simpl;
    rewrite ?andb_false_r; simpl; exact IH.
Qed.

(** X21.  For a list or tuple whose first item is not a sequence and
    whose other items are not non-empty sequences, [__is_reftype]
    answers whether the first item is a Container: the other items are
    not looked at. *)
Theorem is_reftype_first_item (first : PyVal) (rest : list PyVal) :
  has_len first = false \/ is_container_or_string first = true ->
  Forall (fun t => has_len t = false \/ is_container_or_string t = true
                   \/ py_len t = 0%nat) rest ->
  let answer := Ok (match first with VContainer _ => true | _ => false end) in
  __is_reftype (VList (first :: rest)) = answer
  /\ __is_reftype (VTuple (first :: rest)) = answer.
Proof.
  intros Hf Hr answer.
  assert (Hs : scan_items (first :: rest) <> AtSized).
  { apply scan_items_flat. constructor; [tauto|exact Hr]. }
  assert (Ha : __is_reftype first = answer).
  { destruct first; try reflexivity; destruct Hf; discriminate. }
  split.
  - change (__is_reftype (VList (first :: rest)))
      with (match scan_items (first :: rest) with
            | AtSized => Ok false
            | _ => __is_reftype first
            end).
    destruct (scan_items (first :: rest)); congruence.
  - change (__is_reftype (VTuple (first :: rest)))
      with (match scan_items (first :: rest) with
            | AtSized => Ok false
            | _ => __is_reftype first
            end).
    destruct (scan_items (first :: rest)); congruence.
Qed.

Lemma is_reftype_first_item_example :
  __is_reftype (VList [VContainer 1; VInt 5; VText "x"]) = Ok true
  /\ __is_reftype (VTuple [VContainer 1; VInt 5; VText "x"]) = Ok true.
Proof.
  apply (is_reftype_first_item (VContainer 1) [VInt 5; VText "x"]).
  - left. reflexivity.
  - constructor; [left; reflexivity|].
    constructor; [right; left; reflexivity|]. constructor.
Defined.

Section BuildPathFacts.
Variable py : PyLib.
Variable tm : TypeMap.
Variable mgr_build : cid -> option string -> M bid.
Variable m : ObjectMapper.
Variable builder : bid.
Variable container : cid.
Variable source : option string.

(** X22.  A dataset spec whose value on the container is absent or
    empty (None, a sequence or string of length 0, a DataIO around such
    data) is skipped by [__add_datasets]: nothing is written for it, a
    MissingRequiredWarning is emitted if the spec is required, and the
    loop goes on with the next spec. *)
Theorem add_datasets_skips_empty (spec : DatasetSpec)
    (rest : list DatasetSpec) (v : PyVal) (bl : Builder) (s s1 : State) :
  get_attr_value py m (SData spec) container s = (Ok v, s1) ->
  __is_empty v = true ->
  builders s1 !! builder = Some bl ->
  __add_datasets py tm mgr_build m builder (spec :: rest) container source s
  = __add_datasets py tm mgr_build m builder rest container source
      (if ds_required spec
       then add_warning (missing_required "dataset" m (ds_name spec) bl) s1
       else s1).
Proof.
  intros Hv He Hb. unfold __add_datasets. simpl for_each.
  unfold m_bind at 1. unfold m_bind at 1. rewrite Hv, He.
  destruct (ds_required spec); [|reflexivity].
  unfold_monad. rewrite Hb. reflexivity.
Qed.

(** X23.  An untyped, named sub-group that has nothing to hold (no
    attributes, datasets or groups in its spec, and no attribute mapped
    to it) is attached to the builder only if its quantity is an
    integer: the new, empty GroupBuilder is then filed under its name;
    otherwise the builder stays as it was. *)
Theorem add_group_empty (spec : GroupSpec) (n : string) (bl : Builder)
    (s : State) :
  untyped (gs_data_type_def spec) (gs_data_type_inc spec) = true ->
  gs_name spec = Some n ->
  gs_attributes spec = [] ->
  gs_datasets spec = [] ->
  gs_groups spec = [] ->
  Mapper.get_attribute m (SGroup spec) = None ->
  builders s !! builder = Some bl ->
  b_groups bl !! n = None ->
  let i := fresh (dom (builders s)) in
  let sub := Builders.empty KGroup n None source in
  add_group py tm mgr_build m container source spec builder s
  = (Ok tt,
     if quantity_is_int (gs_quantity spec)
     then set_builders
            (fun bs => <[builder := Builders.with_group n i bl]> (<[i := sub]> bs))
            s
     else set_builders (insert i sub) s).
Proof.
  intros Hu Hn Ha Hd Hg Hm Hb Hbn. cbv zeta.
  pose proof (fresh_builder_none s) as Hf.
  assert (Hi : fresh (dom (builders s)) <> builder) by congruence.
  destruct spec as [id name attrs dsets groups links def inc dn q].
  simpl in Hu, Hn, Ha, Hd, Hg. subst name attrs dsets groups.
  simpl add_group. cbn [gs_data_type_def gs_data_type_inc gs_name gs_quantity].
  rewrite Hu, Hm. unfold __add_attributes, __add_datasets.
  simpl for_each.
  unfold Builders.GroupBuilder, Builders.alloc, Builders.set_group,
    Builders.update, Builders.is_empty. unfold_monad.
  rewrite Hb. simpl. rewrite Hbn. state_simpl. rewrite lookup_insert_eq.
  state_simpl. rewrite lookup_insert_ne by exact Hi. rewrite Hb. simpl.
  rewrite !bool_decide_eq_true_2 by reflexivity.
  destruct (quantity_is_int q); simpl; [|reflexivity].
  rewrite Hbn. state_simpl. rewrite lookup_insert_eq.
  state_simpl. rewrite lookup_insert_ne by exact Hi. rewrite Hb.
  reflexivity.
Qed.

End BuildPathFacts.

Lemma add_datasets_skips_empty_example :
  let spec := NameExample.a_dataset 9 "d" in
  __add_datasets pylib0 World.tm (build pylib0 World.tm 1) World.mapper
    0%nat [spec] 0%nat None World.s_no_bar
  = __add_datasets pylib0 World.tm (build pylib0 World.tm 1) World.mapper
      0%nat [] 0%nat None
      (add_warning
         (missing_required "dataset" World.mapper (Some "d")
            (Builders.empty KGroup "f" None None))
         World.s_no_bar).
Proof.
  intros spec.
  apply (add_datasets_skips_empty pylib0 World.tm (build pylib0 World.tm 1)
           World.mapper 0%nat 0%nat None spec [] VNone
           (Builders.empty KGroup "f" None None) World.s_no_bar
           World.s_no_bar); reflexivity.
Defined.

Lemma add_group_empty_example :
  add_group pylib0 World.tm (build pylib0 World.tm 1) World.mapper 0%nat
    None NameExample.h 0%nat World.s_no_bar
  = (Ok tt,
     set_builders
       (fun bs =>
          <[0%nat := Builders.with_group "h"
                       (fresh (dom (builders World.s_no_bar)))
                       (Builders.empty KGroup "f" None None)]>
            (<[fresh (dom (builders World.s_no_bar))
               := Builders.empty KGroup "h" None None]> bs))
       World.s_no_bar).
Proof.
  apply (add_group_empty pylib0 World.tm (build pylib0 World.tm 1)
           World.mapper 0%nat 0%nat None NameExample.h "h"
           (Builders.empty KGroup "f" None None) World.s_no_bar);
    reflexivity.
Defined.

Section ContainersMore.
Variable py : PyLib.
Variable tm : TypeMap.
Variable mgr_build : cid -> option string -> M bid.
Variable m : ObjectMapper.
Variable builder : bid.
Variable spec : Spec.
Variable source : option string.
Variable P : cid.

Local Abbreviation add := (__add_containers py tm mgr_build m builder spec).

Lemma add_containers_cons (v : PyVal) (rest : list PyVal) (s : State) :
  add (VList (v :: rest)) source P s
  = m_bind (lift (py_truthy v))
      (fun t => m_bind (if t then add v source P else ret tt)
                  (fun _ => add (VList rest) source P)) s.
Proof. reflexivity. Qed.

Lemma add_containers_app (a b : list PyVal) (s : State) :
  add (VList (a ++ b)) source P s
  = m_bind (add (VList a) source P) (fun _ => add (VList b) source P) s.
Proof.
  revert s. induction a as [|v a IH]; intros s.
  - reflexivity.
  - change ((v :: a) ++ b)%list with (v :: (a ++ b))%list.
    unfold m_bind. rewrite !add_containers_cons. unfold m_bind.
    destruct (lift (py_truthy v) s) as [[t|e] s1]; [|reflexivity].
    destruct ((if t then add v source P else ret tt) s1) as [[u|e] s2];
      [|reflexivity].
    rewrite IH. reflexivity.
Qed.

(** X24.  [__add_containers] flattens nested lists: a list of lists of
    values is handled as the concatenated list, value by value and in
    order, an empty inner list contributing nothing. *)
Theorem add_containers_flattens (ls : list (list PyVal)) (s : State) :
  add (VList (map VList ls)) source P s
  = add (VList (concat ls)) source P s.
Proof.
  revert s. induction ls as [|l ls IH]; intros s; [reflexivity|].
  change (map VList (l :: ls)) with (VList l :: map VList ls).
  change (concat (l :: ls)) with (l ++ concat ls)%list.
  rewrite add_containers_cons, add_containers_app.
  unfold m_bind, lift.
  destruct l as [|v l].
  - simpl. apply IH.
  - change (py_truthy (VList (v :: l))) with (Ok true).
    cbv iota.
    destruct (add (VList (v :: l)) source P s) as [[u|e] s1]; [|reflexivity].
    apply IH.
Qed.

(** X25.  A Container value that is not modified and has no
    container_source (none, or the empty string) cannot be written or
    linked: after the orphan warning, if one is due, [__add_containers]
    fails with "Found unmodified Container with no source". *)
Theorem add_container_unmodified_no_source (v : cid) (x : Container)
    (s s1 : State) :
  containers s !! v = Some x ->
  c_modified x = false ->
  source_truthy (c_container_source x) = false ->
  orphan_warning tm m builder x s = (Ok tt, s1) ->
  add (VContainer v) source P s
  = (Err (ValueError MsgUnmodifiedNoSource), s1).
Proof.
  intros Hx Hm Hs Ho. simpl. unfold add_container. unfold m_bind at 1.
  unfold get_container at 1. rewrite Hx. unfold m_bind at 1. rewrite Ho.
  rewrite Hm, Hs. reflexivity.
Qed.

(** A mapper of a DatasetSpec builds Data containers only: once the
    name of the builder is determined, the build of a container that is
    not a Data fails with "'container' must be of type Data with
    DatasetSpec", whatever builder was passed in. *)
Lemma ObjectMapper_build_not_data (d : DatasetSpec) (c : cid)
    (x : Container) (name : string) (parent builder0 : option bid)
    (s s1 : State) :
  om_spec m = SData d ->
  get_builder_name tm c s = (Ok name, s1) ->
  containers s1 !! c = Some x ->
  c_kind x = KContainer ->
  ObjectMapper_build py tm mgr_build m c parent source builder0 s
  = (Err (ValueError MsgMustBeData), s1).
Proof.
  intros Hd Hn Hx Hk. unfold ObjectMapper_build. unfold m_bind at 1.
  rewrite Hn, Hd. unfold m_bind at 1. unfold m_bind at 1.
  unfold get_container. rewrite Hx, Hk. reflexivity.
Qed.

End ContainersMore.

Lemma add_container_unmodified_no_source_example :
  let s := mkState
             {[ 0%nat := World.a_foo "f" PNone None false;
                1%nat := World.a_foo "kid" (PContainer 0) (Some "") false ]}
             {[ 0%nat := Builders.empty KGroup "f" None None ]} ∅ ∅ ∅ [] in
  __add_containers pylib0 World.tm (build pylib0 World.tm 1) World.mapper
    0%nat (SGroup World.kids) (VContainer 1) None 0%nat s
  = (Err (ValueError MsgUnmodifiedNoSource), s).
Proof.
  intros s.
  apply (add_container_unmodified_no_source pylib0 World.tm
           (build pylib0 World.tm 1) World.mapper 0%nat (SGroup World.kids)
           None 0%nat 1%nat
           (World.a_foo "kid" (PContainer 0) (Some "") false) s s);
    reflexivity.
Defined.

Lemma ObjectMapper_build_not_data_example :
  let m := mkObjectMapper (SData (NameExample.a_dataset 3 "d")) ∅ ∅ ∅ ∅ ∅ in
  ObjectMapper_build pylib0 World.tm (build pylib0 World.tm 1) m 0%nat None
    None None World.s0
  = (Err (ValueError MsgMustBeData),
     set_mappers (insert 0%nat World.mapper) World.s0).
Proof.
  intros m.
  apply (ObjectMapper_build_not_data pylib0 World.tm
           (build pylib0 World.tm 1) m None (NameExample.a_dataset 3 "d")
           0%nat (World.a_foo "f" PNone None false) "f").
  - reflexivity.
  - vm_compute. reflexivity.
  - reflexivity.
  - reflexivity.
Defined.

(** ** Proxy *)

Section ProxyMore.
Variable tm : TypeMap.
Variable cs : gmap nat Container.

Lemma container_stack_prefix (fuel : nat) :
  forall tmp pre st,
    ProxyM.container_stack fuel cs tmp (pre ++ st)%list
    = match ProxyM.container_stack fuel cs tmp st with
      | Some (Ok r) => Some (Ok (pre ++ r)%list)
      | o => o
      end.
Proof.
  induction fuel as [|n IH]; intros tmp pre st.
  - destruct tmp; simpl; try reflexivity. rewrite app_assoc. reflexivity.
  - destruct tmp as [|c|p]; simpl; try reflexivity.
    + destruct (cs !! c) as [x|]; [|reflexivity].
      rewrite <- app_assoc. apply IH.
    + rewrite app_assoc. reflexivity.
Qed.

Lemma string_app_assoc (a b c : string) : (a ++ b) ++ c = a ++ (b ++ c).
Proof.
  induction a as [|x a IH]; [reflexivity|]. exact (f_equal (String x) IH).
Qed.

Lemma join_slash_snoc (l : list (option string)) (loc n : string) :
  l <> [] ->
  ProxyM.join_slash l = Ok loc ->
  ProxyM.join_slash (l ++ [Some n]) = Ok (loc ++ "/" ++ n).
Proof.
  revert loc. induction l as [|o l IH]; intros loc Hne H; [congruence|].
  destruct o as [x|]; [|discriminate].
  destruct l as [|y rest].
  - injection H as <-. reflexivity.
  - change (ProxyM.join_slash (Some x :: y :: rest))
      with (res_bind (ProxyM.join_slash (y :: rest))
              (fun r => Ok (x ++ "/" ++ r))) in H.
    change (ProxyM.join_slash ((Some x :: y :: rest) ++ [Some n]))
      with (res_bind (ProxyM.join_slash ((y :: rest) ++ [Some n]))
              (fun r => Ok (x ++ "/" ++ r))).
    destruct (ProxyM.join_slash (y :: rest)) as [r|e]; [|discriminate].
    simpl in H. injection H as <-.
    rewrite (IH r) by (discriminate || reflexivity). simpl.
    rewrite !string_app_assoc. reflexivity.
Qed.

(** X27.  The proxy of a container whose parent is a container is made
    from the proxy of the parent: its location is the location of the
    parent, ["/"] and the name of the container; the source, namespace
    and data type are the container's own. *)
Theorem proxy_location_child (fuel : nat) (c p : cid) (x : Container)
    (n : string) (pp : Proxy) :
  cs !! c = Some x ->
  c_parent x = PContainer p ->
  c_name x = Some n ->
  ProxyM.__get_proxy_container fuel tm cs p = Some (Ok pp) ->
  ProxyM.__get_proxy_container (S fuel) tm cs c
  = Some (Ok (mkProxy (c_container_source x) (p_location pp ++ "/" ++ n)
                (fst <$> tm_data_types tm !! c_cls x)
                (snd <$> tm_data_types tm !! c_cls x) [])).
Proof.
  intros Hx Hp Hn H. unfold ProxyM.__get_proxy_container in *.
  rewrite Hx. destruct (cs !! p) as [y|] eqn:Hy; [|discriminate].
  change (ProxyM.container_stack (S fuel) cs (PContainer c) [])
    with (match cs !! c with
          | None => Some (Err (LookupError MsgDangling))
          | Some x => ProxyM.container_stack fuel cs (c_parent x)
                        ([] ++ [c_name x])%list
          end).
  rewrite Hx, Hp, Hn. simpl app.
  rewrite <- (app_nil_r [Some n]), container_stack_prefix.
  destruct (ProxyM.container_stack fuel cs (PContainer p) [])
    as [[stack|e]|] eqn:Es; try discriminate.
  destruct (ProxyM.join_slash (rev stack)) as [loc|e] eqn:El;
    simpl in H; [|discriminate].
  injection H as <-. simpl p_location.
  assert (Hne : rev stack <> []).
  { destruct fuel as [|k]; [discriminate|]. simpl in Es. rewrite Hy in Es.
    rewrite <- (app_nil_r [c_name y]), container_stack_prefix in Es.
    destruct (ProxyM.container_stack k cs (c_parent y) []) as [[r|?]|];
      try discriminate.
    injection Es as <-. simpl. destruct (rev r); discriminate. }
  simpl rev. rewrite (join_slash_snoc _ loc n Hne El). reflexivity.
Qed.

Lemma resolve_loop_add_candidate (fuel : nat) (self : Proxy) (c' : cid)
    (l : list cid) :
  ProxyM.resolve_loop fuel tm cs (ProxyM.add_candidate c' self) l
  = ProxyM.resolve_loop fuel tm cs self l.
Proof.
  induction l as [|x l IH]; simpl; [reflexivity|].
  change (ProxyM.matches fuel tm cs (ProxyM.add_candidate c' self) x)
    with (ProxyM.matches fuel tm cs self x).
  rewrite IH. reflexivity.
Qed.

Lemma resolve_loop_app (fuel : nat) (self : Proxy) (l1 l2 : list cid) :
  ProxyM.resolve_loop fuel tm cs self (l1 ++ l2)
  = match ProxyM.resolve_loop fuel tm cs self l1 with
    | Some (Ok None) => ProxyM.resolve_loop fuel tm cs self l2
    | o => o
    end.
Proof.
  induction l1 as [|x l1 IH]; simpl; [reflexivity|].
  destruct (ProxyM.matches fuel tm cs self x) as [[[|]|]|]; try reflexivity.
  exact IH.
Qed.

(** X28.  Adding a candidate never changes a resolution that was
    found: if [resolve()] returned a candidate, it returns the same one
    after [add_candidate]; if it returned none, the new candidate is
    returned exactly when it matches. *)
Theorem add_candidate_resolve (fuel : nat) (self : Proxy) (c' : cid) :
  (forall c, ProxyM.resolve fuel tm cs self = Some (Ok (Some c)) ->
     ProxyM.resolve fuel tm cs (ProxyM.add_candidate c' self)
     = Some (Ok (Some c)))
  /\ (ProxyM.resolve fuel tm cs self = Some (Ok None) ->
      ProxyM.resolve fuel tm cs (ProxyM.add_candidate c' self)
      = match ProxyM.matches fuel tm cs self c' with
        | Some (Ok true) => Some (Ok (Some c'))
        | Some (Ok false) => Some (Ok None)
        | Some (Err e) => Some (Err e)
        | None => None
        end).
Proof.
  unfold ProxyM.resolve. simpl p_candidates.
  rewrite resolve_loop_add_candidate, resolve_loop_app.
  split.
  - intros c ->. reflexivity.
  - intros ->. simpl.
    destruct (ProxyM.matches fuel tm cs self c') as [[[|]|]|]; reflexivity.
Qed.

End ProxyMore.

Lemma proxy_location_child_example :
  ProxyM.__get_proxy_container 3 World.tm (containers World.s_family) 1%nat
  = Some (Ok (mkProxy (Some "a.nwb") "f/kid" (Some "core") (Some "Foo") [])).
Proof.
  apply (proxy_location_child World.tm (containers World.s_family) 2 1%nat
           0%nat (World.a_foo "kid" (PContainer 0) (Some "a.nwb") false)
           "kid"
           (mkProxy (Some "a.nwb") "f" (Some "core") (Some "Foo") []));
    reflexivity.
Defined.

(** ** The builder side *)

Section BuilderSideFacts.
Variable py : PyLib.
Variable tm : TypeMap.



Variable mgr_build : cid -> option string -> M bid.

(** X30.  What [TypeMap.build] writes, [get_builder_dt] and
    [get_builder_ns] read back: on the group or dataset builder returned
    for a container of a registered class they give the data type and
    the namespace of the class.  (The type key of the spec layer is not
    ["namespace"].) *)
Theorem build_then_builder_type (c : cid) (source : option string)
    (builder : option bid) (s s' : State) (b : bid) (x : Container)
    (ns dt : string) :
  TypeMap_build py tm mgr_build c source builder s = (Ok b, s') ->
  containers s' !! c = Some x ->
  tm_data_types tm !! c_cls x = Some (ns, dt) ->
  tm_type_key tm <> "namespace" ->
  exists bl,
    builders s' !! b = Some bl
    /\ (b_kind bl <> KLink ->
        get_builder_dt py tm bl = Ok (VText dt)
        /\ get_builder_ns (builders s') bl = Ok (VText ns)).
Proof.
  intros H Hx Hreg Hkey. unfold TypeMap_build in H. unfold m_bind in H.
  destruct (get_map tm c s) as [[attr_map|e] s0]; [|discriminate].
  destruct (ObjectMapper_build py tm mgr_build attr_map c None source builder s0)
    as [[b0|e] s1]; [|discriminate].
  unfold get_container in H at 1.
  destruct (containers s1 !! c) as [x1|] eqn:Hx1; [|discriminate].
  destruct (Builders.set_attribute b0 "namespace" _ s1) as [[u|e] s2] eqn:H1;
    [|discriminate].
  destruct (Builders.set_attribute b0 (tm_type_key tm) _ s2) as [[u'|e] s3] eqn:H2;
    [|discriminate].
  unfold ret in H. injection H as <- <-.
  apply set_attribute_inv in H1 as (bl1 & Hb1 & ->).
  apply set_attribute_inv in H2 as (bl2 & Hb2 & ->).
  simpl in Hx. rewrite Hx1 in Hx. injection Hx as ->.
  unfold get_container_ns_dt in *. rewrite Hreg in *. simpl in *.
  rewrite lookup_insert_eq in Hb2. injection Hb2 as <-.
  eexists. split; [apply lookup_insert_eq|]. intros Hk.
  unfold get_builder_dt, get_builder_ns, builder_attribute. simpl in *.
  destruct (b_kind bl1) eqn:Ek; try congruence; simpl; rewrite Ek;
    rewrite lookup_insert_eq; simpl; (split; [reflexivity|]);
    rewrite lookup_insert_ne by exact Hkey; rewrite lookup_insert_eq;
    reflexivity.
Qed.

End BuilderSideFacts.


Lemma build_then_builder_type_example :
  let first := World.tm_build 0%nat (Some "a.nwb") None World.s0 in
  exists bl,
    builders (snd first) !! 0%nat = Some bl
    /\ (b_kind bl <> KLink ->
        get_builder_dt pylib0 World.tm bl = Ok (VText "Foo")
        /\ get_builder_ns (builders (snd first)) bl = Ok (VText "core")).
Proof.
  intros first.
  apply (build_then_builder_type pylib0 World.tm (build pylib0 World.tm 2)
           0%nat (Some "a.nwb") None World.s0 (snd first) 0%nat
           (World.a_foo "f" PNone None false) "core" "Foo").
  - vm_compute. reflexivity.
  - vm_compute. reflexivity.
  - reflexivity.
  - discriminate.
Defined.
